(** * Kats: [kats/transformers/t2v/t2vpreprocessing.py]

    A shallow embedding of the class [T2VPreprocessing] (constructor,
    [_reshaping] and [transform]) and the properties of its
    specification.

    Conventions of the embedding.
    - The values of a time series are kept abstract (a type [A]): the
      class only slices, normalizes and reshapes them.
    - Labels given by the user are numeric Python scalars; the Python type
      of a scalar is kept, since [transform] inspects it.  A Python [int]
      is an unbounded [Z]; a numpy integer is a [Z] wrapped to its width;
      a float is a binary64 number (the primitive [float]), so that
      [np.max(label) + 1] overflows, rounds and propagates NaN as numpy
      does.
    - A method is a function from the instance to the instance after the
      call and an [outcome]: the value returned or the exception raised. *)

From Stdlib Require Import PrimFloat.
From Stdlib Require SpecFloat FloatOps.
From Stdlib Require Import String Bool ZArith List Lia.
Import ListNotations.

Local Open Scope Z_scope.

Set Implicit Arguments.

(** ** Python side: numbers, scalars, exceptions *)

(** A Python number as the class computes with it: [output_size] and
    [window] are integers, unless a floating-point label made its way
    into [np.max(label) + 1]. *)
Inductive num : Type :=
| NInt (z : Z)
| NFloat (f : PrimFloat.float).

(** The result of [type(label)] on a label. *)
Inductive pytype : Type :=
| ty_int        (* int *)
| ty_np_int64   (* numpy.int64 *)
| ty_np_int32   (* numpy.int32, an integer type other than the two above *)
| ty_float.     (* float, numpy.float64 *)

(** Two's complement: the value the integer [z] has in a signed machine
    integer of [bits] bits. *)
Definition wrap (bits z : Z) : Z :=
  (z + 2 ^ (bits - 1)) mod 2 ^ bits - 2 ^ (bits - 1).

(** A label provided by the caller: a Python [int], a [numpy.int64] or
    [numpy.int32] (the scalar whose value is the payload wrapped to the
    width), or a float (Python's or [numpy.float64], both binary64). *)
Inductive scalar : Type :=
| PyInt (z : Z)
| NpInt64 (z : Z)
| NpInt32 (z : Z)
| PyFloat (f : PrimFloat.float).

Definition type_of (l : scalar) : pytype :=
  match l with
  | PyInt _ => ty_int
  | NpInt64 _ => ty_np_int64
  | NpInt32 _ => ty_np_int32
  | PyFloat _ => ty_float
  end.

Definition pytype_eqb (s t : pytype) : bool :=
  match s, t with
  | ty_int, ty_int | ty_np_int64, ty_np_int64
  | ty_np_int32, ty_np_int32 | ty_float, ty_float => true
  | _, _ => false
  end.

(** Exceptions.  [ValueError msg] is the one the module raises itself,
    with the message it logs; the two numpy failures are [ValueError]s of
    numpy's own and are kept apart from it. *)
Inductive exn : Type :=
| ValueError (msg : string)
| NumpyReshapeError        (* ndarray.reshape: size does not fit the shape *)
| NumpyEmptyReduction      (* np.max of a zero-size array *)
| IndexError               (* list index out of range *)
| TypeError                (* slice indices must be integers *)
| AttributeError.          (* attribute read before it was set *)

Inductive outcome (T : Type) : Type :=
| Return (v : T)
| Raise (e : exn).

Arguments Return {T} v.
Arguments Raise {T} e.

Definition bind {T U : Type} (c : outcome T) (k : T -> outcome U) : outcome U :=
  match c with
  | Return v => k v
  | Raise e => Raise e
  end.

Notation "x <- c ;; k" := (bind c (fun x => k))
  (at level 61, c at next level, right associativity).

Definition msg_labels_required : string :=
  "Labels should be provided for training in classification fashion."%string.
Definition msg_float_label : string :=
  "Float cannot be used as label for classification training."%string.
Definition msg_count_mismatch : string :=
  "Number of labels and time series data mismatch."%string.

(** ** numpy side *)

Definition int_value (l : scalar) : option Z :=
  match l with
  | PyInt z => Some z
  | NpInt64 z => Some (wrap 64 z)
  | NpInt32 z => Some (wrap 32 z)
  | PyFloat _ => None
  end.

Definition is_integral (l : scalar) : bool :=
  match int_value l with Some _ => true | None => false end.

Definition as_Z (l : scalar) : Z :=
  match int_value l with Some z => z | None => 0 end.

(** An integer as a binary64 number, rounded to nearest, ties to even. *)
Definition float_of_Z (z : Z) : PrimFloat.float :=
  FloatOps.SF2Prim (SpecFloat.binary_normalize FloatOps.prec FloatOps.emax z 0 false).

Definition as_float (l : scalar) : PrimFloat.float :=
  match l with
  | PyFloat f => f
  | _ => float_of_Z (as_Z l)
  end.

(** The dtypes [np.asarray] can give a list of such labels. *)
Inductive dtype : Type :=
| dt_int32
| dt_int64
| dt_uint64
| dt_float64
| dt_object.

(** The dtype numpy discovers for one entry: a Python [int] is an int64
    when it fits, else a uint64 when it fits, else a Python object. *)
Definition dtype_of (l : scalar) : dtype :=
  match l with
  | PyInt z =>
      if (- 2 ^ 63 <=? z) && (z <? 2 ^ 63) then dt_int64
      else if (0 <=? z) && (z <? 2 ^ 64) then dt_uint64
      else dt_object
  | NpInt64 _ => dt_int64
  | NpInt32 _ => dt_int32
  | PyFloat _ => dt_float64
  end.

(** [np.promote_types] on these dtypes: signed with unsigned 64-bit
    integers give float64, and an object absorbs everything. *)
Definition promote (a b : dtype) : dtype :=
  match a, b with
  | dt_object, _ | _, dt_object => dt_object
  | dt_float64, _ | _, dt_float64 => dt_float64
  | dt_uint64, dt_uint64 => dt_uint64
  | dt_uint64, _ | _, dt_uint64 => dt_float64
  | dt_int64, _ | _, dt_int64 => dt_int64
  | dt_int32, dt_int32 => dt_int32
  end.

Definition result_dtype (l : scalar) (ls : list scalar) : dtype :=
  fold_left (fun d x => promote d (dtype_of x)) ls (dtype_of l).

(** [np.maximum] on binary64 numbers: a NaN wins. *)
Definition fmax (a b : PrimFloat.float) : PrimFloat.float :=
  if PrimFloat.is_nan a then a
  else if PrimFloat.is_nan b then b
  else if PrimFloat.ltb a b then b else a.

(** Python's exact comparison of an [int] with a float: [z >= f] and
    [f >= z]. *)
Definition Z_ge_float (z : Z) (f : PrimFloat.float) : bool :=
  match FloatOps.Prim2SF f with
  | SpecFloat.S754_nan => false
  | SpecFloat.S754_infinity s => s
  | SpecFloat.S754_zero _ => 0 <=? z
  | SpecFloat.S754_finite s m e =>
      let v := if s then Z.neg m else Z.pos m in
      if 0 <=? e then v * 2 ^ e <=? z else v <=? z * 2 ^ (- e)
  end.

Definition float_ge_Z (f : PrimFloat.float) (z : Z) : bool :=
  match FloatOps.Prim2SF f with
  | SpecFloat.S754_nan => false
  | SpecFloat.S754_infinity s => negb s
  | SpecFloat.S754_zero _ => z <=? 0
  | SpecFloat.S754_finite s m e =>
      let v := if s then Z.neg m else Z.pos m in
      if 0 <=? e then z <=? v * 2 ^ e else z * 2 ^ (- e) <=? v
  end.

(** [a >= b] between the entries of an object array: integers compare
    exactly, a Python [int] and a float exactly, a numpy integer and a
    float as binary64 numbers. *)
Definition obj_ge (a b : scalar) : bool :=
  match a, b with
  | PyFloat f, PyFloat g => PrimFloat.leb g f
  | PyInt z, PyFloat g => Z_ge_float z g
  | PyFloat f, PyInt z => float_ge_Z f z
  | _, PyFloat g => PrimFloat.leb g (float_of_Z (as_Z a))
  | PyFloat f, _ => PrimFloat.leb (float_of_Z (as_Z b)) f
  | _, _ => as_Z b <=? as_Z a
  end.

(** [np.maximum] on Python objects keeps the first operand when it is
    [>=] the second. *)
Definition obj_max (a b : scalar) : scalar := if obj_ge a b then a else b.

(** What [np.max] returns: a numpy scalar of the array's dtype, or, for an
    object array, one of the entries. *)
Inductive np_scalar : Type :=
| np_int32 (z : Z)
| np_int64 (z : Z)
| np_uint64 (z : Z)
| np_float64 (f : PrimFloat.float)
| py_object (l : scalar).

(** [np.max(label)]: the list becomes an array of the promoted dtype and
    is reduced with [np.maximum]; an empty array has no maximum. *)
Definition np_max (ls : list scalar) : outcome np_scalar :=
  match ls with
  | [] => Raise NumpyEmptyReduction
  | l :: ls' =>
      let zmax := fold_left Z.max (map as_Z ls') (as_Z l) in
      Return (match result_dtype l ls' with
              | dt_int32 => np_int32 zmax
              | dt_int64 => np_int64 zmax
              | dt_uint64 => np_uint64 zmax
              | dt_float64 => np_float64 (fold_left fmax (map as_float ls') (as_float l))
              | dt_object => py_object (fold_left obj_max ls' l)
              end)
  end.

(** [m + 1] for what [np.max] returned (numpy 2: the Python [1] takes the
    type of [m]): a machine integer wraps around, a Python [int] does
    not, a float rounds. *)
Definition num_succ (m : np_scalar) : num :=
  match m with
  | np_int32 z => NInt (wrap 32 (z + 1))
  | np_int64 z => NInt (wrap 64 (z + 1))
  | np_uint64 z => NInt ((z + 1) mod 2 ^ 64)
  | np_float64 f => NFloat (PrimFloat.add f PrimFloat.one)
  | py_object (PyInt z) => NInt (z + 1)
  | py_object (NpInt64 z) => NInt (wrap 64 (wrap 64 z + 1))
  | py_object (NpInt32 z) => NInt (wrap 32 (wrap 32 z + 1))
  | py_object (PyFloat f) => NFloat (PrimFloat.add f PrimFloat.one)
  end.

(** [n - m] for a Python [int] [n]. *)
Definition num_sub (n : Z) (m : num) : num :=
  match m with
  | NInt z => NInt (n - z)
  | NFloat f => NFloat (PrimFloat.sub (float_of_Z n) f)
  end.

(** The position a slice bound [i] denotes in a sequence of [n] items:
    a negative bound counts from the end, and the result is clamped to
    [0 .. n]. *)
Definition slice_index (i : Z) (n : nat) : nat :=
  Z.to_nat (if i <? 0 then Z.max 0 (i + Z.of_nat n) else Z.min i (Z.of_nat n)).

Section Values.

Variable A : Type.

(** [a[:stop]] and [a[start:]] on a one-dimensional array. *)
Definition slice_to (stop : Z) (a : list A) : list A :=
  firstn (slice_index stop (length a)) a.

Definition slice_from (start : Z) (a : list A) : list A :=
  skipn (slice_index start (length a)) a.

(** An array after [reshape]: its shape and its items in row-major
    order. *)
Record ndarray : Type := mk_ndarray {
  shape : list nat;
  flat : list A
}.

(** [a.reshape([w, 1])] on a one-dimensional array [a].  A negative entry
    of the shape ([-1] in numpy's documentation) stands for the dimension
    numpy infers from the size; otherwise the sizes have to agree. *)
Definition reshape_w1 (w : Z) (a : list A) : outcome ndarray :=
  if w <? 0 then Return (mk_ndarray [length a; 1%nat] a)
  else if w =? Z.of_nat (length a)
       then Return (mk_ndarray [Z.to_nat w; 1%nat] a)
       else Raise NumpyReshapeError.

(** ** The collaborators *)

(** [TimeSeriesData], univariate: [len(ts)] is the number of values and
    [ts.value.values] the array of them. *)
Record TimeSeriesData : Type := mk_ts {
  value : list A
}.

Definition len (ts : TimeSeriesData) : nat := length (value ts).

(** [T2VParam], the fields the class reads. *)
Record T2VParam : Type := mk_param {
  mode : string;
  normalizer : option (list A -> list A);
  training_output_size : Z
}.

(** An element of the [label] list of the result: a label of the caller
    (or the placeholder), or the tail of a series. *)
Inductive pyobj : Type :=
| Scalar (s : scalar)
| Array (a : list A).

(** ** The class *)

(** The attributes of an instance.  [self_window] does not exist until
    [transform] has run. *)
Record T2VPreprocessing : Type := mk_self {
  self_data : list TimeSeriesData;
  self_param : T2VParam;
  self_dummy_label : bool;
  self_label : option (list scalar);
  self_mode : string;
  self_output_size : num;
  self_window : option num
}.

(** The record [transform] returns. *)
Record T2VPreprocessed : Type := mk_result {
  seq : list ndarray;
  label : list pyobj;
  output_size : num;
  window : num;
  batched : bool
}.

Definition is_classification (m : string) : bool := String.eqb m "classification"%string.

Definition is_None {T : Type} (o : option T) : bool :=
  match o with None => true | Some _ => false end.

(** [__init__]: lines 44-54. *)
Definition __init__ (param : T2VParam) (data : list TimeSeriesData)
    (label : option (list scalar)) (dummy_label : bool)
  : outcome T2VPreprocessing :=
  out <- match label with
         | Some ls =>
             if is_classification (mode param)
             then (m <- np_max ls ;; Return (num_succ m))
             else Return (NInt (training_output_size param))
         | None => Return (NInt (training_output_size param))
         end ;;
  Return (mk_self data param dummy_label label (mode param) out None).

Fixpoint traverse {T U : Type} (f : T -> outcome U) (l : list T) : outcome (list U) :=
  match l with
  | [] => Return []
  | x :: l' => y <- f x ;; ys <- traverse f l' ;; Return (y :: ys)
  end.

(** [_reshaping]: line 67.  [self.window] is read for each array, so not
    at all for an empty list, and the comprehension stops at the first
    array that does not reshape. *)
Definition _reshaping (self : T2VPreprocessing) (sequence : list (list A))
  : outcome (list ndarray) :=
  traverse (fun a => match self_window self with
                     | None => Raise AttributeError
                     | Some (NFloat _) => Raise TypeError
                     | Some (NInt w) => reshape_w1 w a
                     end) sequence.

(** The loop of lines 84-88. *)
Fixpoint check_labels (ls : list scalar) : outcome unit :=
  match ls with
  | [] => Return tt
  | l :: ls' =>
      if negb (pytype_eqb (type_of l) ty_int) && negb (pytype_eqb (type_of l) ty_np_int64)
      then Raise (ValueError msg_float_label)
      else check_labels ls'
  end.

(** Lines 77-88. *)
Definition sanity_check (self : T2VPreprocessing) : outcome unit :=
  if is_classification (self_mode self) && negb (self_dummy_label self)
  then match self_label self with
       | None => Raise (ValueError msg_labels_required)
       | Some ls => check_labels ls
       end
  else Return tt.

Definition set_window (self : T2VPreprocessing) (w : num) : T2VPreprocessing :=
  mk_self (self_data self) (self_param self) (self_dummy_label self)
          (self_label self) (self_mode self) (self_output_size self) (Some w).

(** A slice bound has to be an integer; the comprehensions of lines
    99-105 and 111 evaluate it once per series. *)
Definition slices (cut : Z -> list A -> list A) (bound : num)
    (data : list TimeSeriesData) : outcome (list (list A)) :=
  traverse (fun ts => match bound with
                      | NInt e => Return (cut e (value ts))
                      | NFloat _ => Raise TypeError
                      end) data.

Definition apply_normalizer (param : T2VParam) (a : list A) : list A :=
  match normalizer param with
  | Some f => f a
  | None => a
  end.

(** Lines 98-105: the leading part of every series, normalized. *)
Definition make_seq (self : T2VPreprocessing) (end_ : num) : outcome (list (list A)) :=
  cut <- slices slice_to end_ (self_data self) ;;
  Return (map (apply_normalizer (self_param self)) cut).

(** Lines 107-114: the labels of the caller, the tails of the series, or
    one placeholder per series. *)
Definition make_label (self : T2VPreprocessing) (end_ : num) : outcome (list pyobj) :=
  if negb (self_dummy_label self)
  then match self_label self with
       | Some ls => Return (map Scalar ls)
       | None => tails <- slices slice_from end_ (self_data self) ;;
                 Return (map Array tails)
       end
  else Return (map (fun _ => Scalar (PyInt (-1))) (self_data self)).

(** Lines 98-142; [self] is the instance with [window] already set. *)
Definition build (self : T2VPreprocessing) (end_ : num) : outcome T2VPreprocessed :=
  seq <- make_seq self end_ ;;
  label <- make_label self end_ ;;
  if negb (Nat.eqb (length label) (length seq))
  then Raise (ValueError msg_count_mismatch)
  else
    seq' <- _reshaping self seq ;;
    match self_window self with
    | Some w => Return (mk_result seq' label (self_output_size self) w false)
    | None => Raise AttributeError
    end.

(** Lines 92-95: the bound of the leading part. *)
Definition end_of (self : T2VPreprocessing) (ts_sample : TimeSeriesData) : num :=
  let end_ := Z.of_nat (len ts_sample) in
  if is_None (self_label self) && negb (self_dummy_label self)
  then num_sub end_ (self_output_size self)
  else NInt end_.

(** [transform]: the instance after the call and what the call gave. *)
Definition transform (self : T2VPreprocessing)
  : T2VPreprocessing * outcome T2VPreprocessed :=
  match sanity_check self with
  | Raise e => (self, Raise e)
  | Return _ =>
      match self_data self with
      | [] => (self, Raise IndexError)
      | ts_sample :: _ =>
          let end_ := end_of self ts_sample in
          let self' := set_window self end_ in
          (self', build self' end_)
      end
  end.

End Values.

Arguments Scalar {A} s.
Arguments Array {A} a.

(** ** Vocabulary of the specification *)

(** What the data model asks of the input: there is a first series, every
    series is as long as it, and a normalizer keeps the length of what it
    is given. *)
Definition equal_length {A : Type} (data : list (TimeSeriesData A)) : Prop :=
  match data with
  | [] => False
  | ts0 :: rest => Forall (fun ts => len ts = len ts0) rest
  end.

Definition length_preserving {A : Type} (param : T2VParam A) : Prop :=
  forall f, normalizer param = Some f -> forall a, length (f a) = length a.

(** The spec's ValidationError: a [ValueError] of the module's own. *)
Definition ValidationError {T : Type} (o : outcome T) : Prop :=
  exists msg, o = Raise (ValueError msg).

(** The shape of an array, as the list of integers a caller reads. *)
Definition shape_is {A : Type} (dims : list Z) (a : ndarray A) : Prop :=
  map Z.of_nat (shape a) = dims.

(** A label the check of lines 84-88 rejects: its type is neither [int]
    nor [numpy.int64]. *)
Definition other_type (l : scalar) : Prop :=
  type_of l <> ty_int /\ type_of l <> ty_np_int64.

(** ** What [transform] computes, spelled out *)

(** The arrays handed to [_reshaping] when the bound is the integer [e]. *)
Definition retained {A : Type} (self : T2VPreprocessing A) (e : Z) : list (list A) :=
  map (fun ts => apply_normalizer (self_param self) (slice_to e (value ts)))
      (self_data self).

(** The [label] list of line 108-114 when the bound is the integer [e]. *)
Definition labels_at {A : Type} (self : T2VPreprocessing A) (e : Z) : list (pyobj A) :=
  if self_dummy_label self
  then repeat (Scalar (PyInt (-1))) (length (self_data self))
  else match self_label self with
       | Some ls => map Scalar ls
       | None => map (fun ts => Array (slice_from e (value ts))) (self_data self)
       end.

(** ** The claims of the specification that the code does not meet, as
    they are stated *)

(** A result that splits every series at [window] = length of the first
    series - [training_output_size]: the values before position [window],
    normalized and of shape [window, 1], go to [seq], the values after it
    to [label].  The two parts are written with the slices of the code,
    [values[:window]] and [values[window:]]. *)
Definition tail_split {A : Type} (param : T2VParam A) (data : list (TimeSeriesData A))
    (r : T2VPreprocessed A) : Prop :=
  match data with
  | [] => False
  | ts0 :: _ =>
      let w := Z.of_nat (len ts0) - training_output_size param in
      window r = NInt w /\
      output_size r = NInt (training_output_size param) /\
      Forall2 (fun ts a =>
                 flat a = apply_normalizer param (slice_to w (value ts)) /\
                 shape_is [w; 1] a) data (seq r) /\
      Forall2 (fun ts l => l = Array (slice_from w (value ts))) data (label r)
  end.

(** C1 as stated: every regression configuration without labels and
    without the dummy flag yields such a result. *)
Definition regression_claim {A : Type} (param : T2VParam A)
    (data : list (TimeSeriesData A)) : Prop :=
  mode param = "regression"%string ->
  equal_length data -> length_preserving param ->
  exists self r,
    __init__ param data None false = Return self /\
    snd (transform self) = Return r /\
    tail_split param data r.

(** C2 as stated: in classification mode without the dummy flag, a
    ValidationError is raised exactly when the labels are absent or one of
    them is not of an integer type. *)
Definition classification_claim {A : Type} (self : T2VPreprocessing A) : Prop :=
  is_classification (self_mode self) = true -> self_dummy_label self = false ->
  (ValidationError (snd (transform self)) <->
   self_label self = None \/
   exists ls, self_label self = Some ls /\ Exists (fun l => is_integral l = false) ls).

(** C3 as stated, for labels that are integers: with labels and mode
    "classification" the constructor stores the greatest label plus one,
    and otherwise the configured size. *)
Definition output_size_claim {A : Type} (param : T2VParam A)
    (data : list (TimeSeriesData A)) (label : option (list scalar))
    (dummy_label : bool) : Prop :=
  forall self, __init__ param data label dummy_label = Return self ->
  (forall ls, label = Some ls -> is_classification (mode param) = true ->
     forallb is_integral ls = true ->
     exists m, In m ls /\ Forall (fun l => as_Z l <= as_Z m) ls /\
               self_output_size self = NInt (as_Z m + 1))
  /\
  (label = None \/ is_classification (mode param) = false ->
     self_output_size self = NInt (training_output_size param)).

(** C4 as stated, for series as long as the first and a normalizer that
    keeps lengths: with the dummy flag [transform] gives one placeholder
    -1 per series and a [window] that is the length of the first
    series. *)
Definition dummy_claim {A : Type} (self : T2VPreprocessing A) : Prop :=
  self_dummy_label self = true ->
  (forall ts0 rest, self_data self = ts0 :: rest ->
     Forall (fun ts => length (value ts) = length (value ts0)) rest) ->
  length_preserving (self_param self) ->
  exists r,
    snd (transform self) = Return r /\
    label r = repeat (Scalar (PyInt (-1))) (length (self_data self)) /\
    window r = NInt (Z.of_nat (length (value (hd (mk_ts []) (self_data self))))).

(** C5 as stated: a label list (dummy flag off) whose length is not the
    number of series makes [transform] raise a ValidationError. *)
Definition count_mismatch_claim {A : Type} (self : T2VPreprocessing A) : Prop :=
  self_dummy_label self = false ->
  forall ls, self_label self = Some ls ->
  length ls <> length (self_data self) ->
  ValidationError (snd (transform self)).

(** C6 as stated: construction never fails. *)
Definition construction_claim {A : Type} (param : T2VParam A)
    (data : list (TimeSeriesData A)) (label : option (list scalar))
    (dummy_label : bool) : Prop :=
  exists self, __init__ param data label dummy_label = Return self.

(** C7 as stated, for the window [transform] sets: the reshape step fails
    exactly when the retained length of some series is not [window], and
    with series as long as the first it does not fail and gives arrays of
    shape [window, 1]. *)
Definition reshape_claim {A : Type} (self : T2VPreprocessing A) : Prop :=
  length_preserving (self_param self) ->
  forall ts0 rest w,
    self_data self = ts0 :: rest -> end_of self ts0 = NInt w ->
    let step := _reshaping (set_window self (NInt w)) (retained self w) in
    (step = Raise NumpyReshapeError <->
     Exists (fun ts => Z.of_nat (length (slice_to w (value ts))) <> w) (self_data self))
    /\
    (equal_length (self_data self) ->
     exists seq', step = Return seq' /\ Forall (shape_is [w; 1]) seq').

(** C10 as stated: outside classification mode, or with the dummy flag,
    labels of any type are accepted and come back unchanged when there is
    one per series. *)
Definition unchecked_labels_claim {A : Type} (self : T2VPreprocessing A) : Prop :=
  is_classification (self_mode self) = false \/ self_dummy_label self = true ->
  equal_length (self_data self) -> length_preserving (self_param self) ->
  forall ls, self_label self = Some ls ->
  length ls = length (self_data self) ->
  exists r, snd (transform self) = Return r /\ label r = map Scalar ls.

(** ** Sample inputs *)

Module Sample.

Definition regression (n : Z) : T2VParam Z := mk_param "regression" None n.

Definition classification : T2VParam Z := mk_param "classification" None 1.

(** A normalizer: every value doubled. *)
Definition doubling (n : Z) : T2VParam Z :=
  mk_param "regression" (Some (map (Z.mul 2))) n.

Definition one_series : list (TimeSeriesData Z) := [mk_ts [1; 2; 3]].

Definition two_series : list (TimeSeriesData Z) :=
  [mk_ts [1; 2; 3; 4; 5]; mk_ts [6; 7; 8; 9; 10]].

(** The instance the constructor stores, before [transform]. *)
Definition instance (param : T2VParam Z) (data : list (TimeSeriesData Z))
    (label : option (list scalar)) (dummy_label : bool) (out : num)
  : T2VPreprocessing Z :=
  mk_self data param dummy_label label (mode param) out None.

(** Scenario A on two series: regression, no labels. *)
Definition scenario_A : T2VPreprocessing Z :=
  instance (regression 2) two_series None false (NInt 2).

(** The same with the doubling normalizer. *)
Definition scenario_A_doubled : T2VPreprocessing Z :=
  instance (doubling 2) two_series None false (NInt 2).

(** Scenario C: classification with a float label. *)
Definition scenario_C : T2VPreprocessing Z :=
  instance classification two_series (Some [PyInt 0; PyFloat 1.5%float]) false
           (NFloat 2.5%float).

(** Scenario D: the labels of scenario C and the dummy flag. *)
Definition scenario_D : T2VPreprocessing Z :=
  instance classification two_series (Some [PyInt 0; PyFloat 1.5%float]) true
           (NFloat 2.5%float).

(** Scenario E: three labels for two series. *)
Definition scenario_E : T2VPreprocessing Z :=
  instance classification two_series (Some [PyInt 0; PyInt 1; PyInt 2]) false (NInt 3).

(** Regression with float labels, one per series. *)
Definition float_labels : T2VPreprocessing Z :=
  instance (regression 1) two_series (Some [PyFloat 0.5%float; PyInt 7]) false (NInt 1).

(** Scenario B: classification with integer labels. *)
Definition scenario_B : T2VPreprocessing Z :=
  instance classification two_series (Some [PyInt 0; PyInt 2]) false (NInt 3).

(** What [transform] returns in scenarios A and B. *)
Definition result_A : T2VPreprocessed Z :=
  mk_result [mk_ndarray [3%nat; 1%nat] [1; 2; 3]; mk_ndarray [3%nat; 1%nat] [6; 7; 8]]
            [Array [4; 5]; Array [9; 10]] (NInt 2) (NInt 3) false.

Definition result_B : T2VPreprocessed Z :=
  mk_result [mk_ndarray [5%nat; 1%nat] [1; 2; 3; 4; 5];
             mk_ndarray [5%nat; 1%nat] [6; 7; 8; 9; 10]]
            [Scalar (PyInt 0); Scalar (PyInt 2)] (NInt 3) (NInt 5) false.

End Sample.

(** ** The class as its callers use it *)

(** [T2VPreprocessing(param, data, label, dummy_label).transform()]: the
    constructor, then [transform] on the instance it gives. *)
Definition preprocess {A : Type} (param : T2VParam A) (data : list (TimeSeriesData A))
    (label : option (list scalar)) (dummy_label : bool) : outcome (T2VPreprocessed A) :=
  self <- __init__ param data label dummy_label ;; snd (transform self).

(** The parameters with another [mode]. *)
Definition with_mode {A : Type} (param : T2VParam A) (m : string) : T2VParam A :=
  mk_param m (normalizer param) (training_output_size param).

(** * Properties *)

(** ** Sequencing and traversals *)

Lemma bind_Return_inv {T U : Type} (c : outcome T) (k : T -> outcome U) (u : U) :
  bind c k = Return u -> exists v, c = Return v /\ k v = Return u.
Proof.
  destruct c as [v|e]; simpl; intros H; [now exists v | discriminate].
Qed.

Lemma traverse_total {T U : Type} (f : T -> outcome U) (g : T -> U) (l : list T) :
  (forall x, In x l -> f x = Return (g x)) -> traverse f l = Return (map g l).
Proof.
  induction l as [|x l IH]; simpl; intros H; [reflexivity|].
  rewrite (H x (or_introl eq_refl)); simpl.
  rewrite IH by (intros y Hy; apply H; now right).
  reflexivity.
Qed.

Lemma traverse_Return_inv {T U : Type} (f : T -> outcome U) (l : list T) (ys : list U) :
  traverse f l = Return ys -> Forall2 (fun x y => f x = Return y) l ys.
Proof.
  revert ys; induction l as [|x l IH]; simpl; intros ys H.
  - injection H as <-. constructor.
  - apply bind_Return_inv in H as (y & Hy & H).
    apply bind_Return_inv in H as (ys' & Hys & H).
    injection H as <-. constructor; auto.
Qed.

(** ** Maxima, as [np.max] folds them *)

Lemma fold_left_Zmax (l : list Z) (a : Z) :
  let m := fold_left Z.max l a in
  (m = a \/ In m l) /\ a <= m /\ Forall (fun x => x <= m) l.
Proof.
  revert a; induction l as [|x l IH]; intros a; simpl.
  - repeat split; auto; lia.
  - destruct (IH (Z.max a x)) as ([Hm|Hm] & Hle & Hall).
    + repeat split.
      * rewrite Hm. destruct (Z.max_spec a x) as [[_ ->]|[_ ->]]; auto.
      * lia.
      * constructor; [lia | exact Hall].
    + repeat split; auto; [lia | constructor; [lia | exact Hall]].
Qed.

Lemma wrap_64_small (z : Z) : - 2 ^ 63 <= z < 2 ^ 63 -> wrap 64 z = z.
Proof.
  intros H. unfold wrap. change (2 ^ (64 - 1)) with (2 ^ 63).
  change (2 ^ 64) with (2 * 2 ^ 63). rewrite Z.mod_small; lia.
Qed.

Lemma wrap_64_range (z : Z) : - 2 ^ 63 <= wrap 64 z < 2 ^ 63.
Proof.
  unfold wrap. change (2 ^ (64 - 1)) with (2 ^ 63).
  assert (H := Z.mod_pos_bound (z + 2 ^ 63) (2 ^ 64) eq_refl).
  change (2 ^ 64) with (2 * 2 ^ 63) in *. lia.
Qed.

(** A label the check accepts is an int64 entry as soon as it fits. *)
Lemma dtype_of_int64 (l : scalar) :
  ~ other_type l -> - 2 ^ 63 <= as_Z l < 2 ^ 63 -> dtype_of l = dt_int64.
Proof.
  unfold other_type. destruct l as [z|z|z|f]; intros Ht Hr.
  - change (as_Z (PyInt z)) with z in Hr. unfold dtype_of.
    assert (H1 : (- 2 ^ 63 <=? z) = true) by (apply Z.leb_le; lia).
    assert (H2 : (z <? 2 ^ 63) = true) by (apply Z.ltb_lt; lia).
    now rewrite H1, H2.
  - reflexivity.
  - exfalso. apply Ht. split; discriminate.
  - exfalso. apply Ht. split; discriminate.
Qed.

Lemma result_dtype_int64 (l : scalar) (ls : list scalar) :
  Forall (fun x => dtype_of x = dt_int64) (l :: ls) -> result_dtype l ls = dt_int64.
Proof.
  intros H. inversion H as [|x xs Hl Hls]; subst. unfold result_dtype. rewrite Hl.
  clear H Hl. induction Hls as [|x xs Hx _ IH]; simpl; [reflexivity|].
  now rewrite Hx.
Qed.

(** On int64 entries [np.max] returns, as an int64, an entry of the list
    that no entry exceeds. *)
Lemma np_max_int64 (ls : list scalar) (n : np_scalar) :
  Forall (fun x => dtype_of x = dt_int64) ls ->
  np_max ls = Return n ->
  exists m, In m ls /\ Forall (fun l => as_Z l <= as_Z m) ls /\ n = np_int64 (as_Z m).
Proof.
  destruct ls as [|l ls']; [discriminate|]. intros Hd H.
  unfold np_max in H. rewrite (result_dtype_int64 Hd) in H. injection H as <-.
  destruct (fold_left_Zmax (map as_Z ls') (as_Z l)) as (Hm & Hle & Hall).
  set (z := fold_left Z.max (map as_Z ls') (as_Z l)) in *.
  assert (Hex : exists m, In m (l :: ls') /\ as_Z m = z).
  { destruct Hm as [Hm|Hm]; [exists l; split; [now left | now rewrite Hm]|].
    apply in_map_iff in Hm as (m & Hm & Hin). exists m; split; [now right | exact Hm]. }
  destruct Hex as (m & Hin & Hz). exists m. split; [exact Hin|]. split; [|now rewrite Hz].
  rewrite Hz. constructor; [exact Hle|].
  rewrite Forall_forall in Hall |- *. intros x Hx. apply Hall. now apply in_map.
Qed.

Section Construction.

Context {A : Type}.
Implicit Types (param : T2VParam A) (data : list (TimeSeriesData A)).

(** ** The constructor *)

(** C3, as amended.  Whenever the constructor yields an instance: with
    labels given that are Python ints or [numpy.int64]s, each an int64
    below the largest one, and mode "classification", the stored
    [output_size] is the greatest label plus one; with no labels, or any
    other mode, it is the configured [training_output_size]. *)
Theorem init_output_size param data (label : option (list scalar)) (dummy_label : bool)
    (self : T2VPreprocessing A) :
  __init__ param data label dummy_label = Return self ->
  (forall ls, label = Some ls -> is_classification (mode param) = true ->
     Forall (fun l => ~ other_type l /\ - 2 ^ 63 <= as_Z l < 2 ^ 63 - 1) ls ->
     exists m, In m ls /\ Forall (fun l => as_Z l <= as_Z m) ls /\
               self_output_size self = NInt (as_Z m + 1))
  /\
  (label = None \/ is_classification (mode param) = false ->
     self_output_size self = NInt (training_output_size param)).
Proof.
  unfold __init__. intros H. split.
  - intros ls -> Hc Hls. rewrite Hc in H. simpl in H.
    destruct (np_max ls) as [n|e] eqn:Hmax; simpl in H; [|discriminate].
    injection H as <-. simpl.
    assert (Hd : Forall (fun x => dtype_of x = dt_int64) ls).
    { eapply Forall_impl; [|exact Hls]. intros l [Ht Hr]. apply dtype_of_int64; [exact Ht | lia]. }
    destruct (np_max_int64 Hd Hmax) as (m & Hin & Hall & ->).
    exists m. split; [exact Hin|]. split; [exact Hall|].
    simpl. rewrite Forall_forall in Hls. destruct (Hls m Hin) as [_ Hr].
    rewrite wrap_64_small by lia. reflexivity.
  - intros [-> | Hc].
    + simpl in H. injection H as <-. reflexivity.
    + destruct label as [ls|]; [rewrite Hc in H|]; simpl in H; injection H as <-; reflexivity.
Qed.

(** C6, as amended.  The constructor validates nothing and stores its
    arguments as they are; it raises in one case only: mode
    "classification" with an empty label list, where [np.max] has nothing
    to reduce. *)
Theorem init_raises_iff param data (label : option (list scalar)) (dummy_label : bool) :
  (forall e, __init__ param data label dummy_label = Raise e <->
             e = NumpyEmptyReduction /\ label = Some [] /\
             is_classification (mode param) = true)
  /\
  (forall self, __init__ param data label dummy_label = Return self ->
     self_data self = data /\ self_param self = param /\
     self_label self = label /\ self_dummy_label self = dummy_label /\
     self_mode self = mode param /\ self_window self = None).
Proof.
  unfold __init__. split.
  - intros e. destruct label as [[|l ls]|]; destruct (is_classification (mode param)) eqn:Hc;
      cbn [bind np_max];
      split; try discriminate; try (intros (_ & H & _); discriminate);
      try (intros (_ & _ & H); discriminate).
    + intros H; injection H as <-. auto.
    + intros (-> & _). reflexivity.
  - intros self H.
    destruct label as [ls|]; [destruct (is_classification (mode param))|]; simpl in H;
      try (destruct (np_max ls); simpl in H; [|discriminate]);
      injection H as <-; simpl; auto 10.
Qed.

End Construction.

(** ** Slices and reshapes *)

Section Arrays.

Context {A : Type}.

Lemma slice_to_firstn (w : Z) (a : list A) :
  0 <= w -> slice_to w a = firstn (Z.to_nat w) a.
Proof.
  intros Hw. unfold slice_to, slice_index.
  destruct (w <? 0) eqn:E; [apply Z.ltb_lt in E; lia|].
  destruct (Z.le_gt_cases w (Z.of_nat (length a))) as [H|H].
  - now rewrite Z.min_l.
  - rewrite Z.min_r, Nat2Z.id by lia.
    rewrite firstn_all. symmetry. apply firstn_all2. lia.
Qed.

Lemma slice_from_skipn (w : Z) (a : list A) :
  0 <= w -> slice_from w a = skipn (Z.to_nat w) a.
Proof.
  intros Hw. unfold slice_from, slice_index.
  destruct (w <? 0) eqn:E; [apply Z.ltb_lt in E; lia|].
  destruct (Z.le_gt_cases w (Z.of_nat (length a))) as [H|H].
  - now rewrite Z.min_l.
  - rewrite Z.min_r, Nat2Z.id by lia.
    rewrite skipn_all. symmetry. apply skipn_all2. lia.
Qed.

Lemma slice_to_length (w : Z) (a : list A) :
  0 <= w <= Z.of_nat (length a) -> Z.of_nat (length (slice_to w a)) = w.
Proof.
  intros Hw. rewrite slice_to_firstn by lia. rewrite length_firstn. lia.
Qed.

(** A slice and its complement make up the array, whatever the bound. *)
Lemma slice_to_from (w : Z) (a : list A) : slice_to w a ++ slice_from w a = a.
Proof. apply firstn_skipn. Qed.

Lemma reshape_w1_Return_inv (w : Z) (a : list A) (b : ndarray A) :
  reshape_w1 w a = Return b ->
  flat b = a /\ shape b = [length a; 1%nat] /\ (0 <= w -> Z.of_nat (length a) = w).
Proof.
  unfold reshape_w1. destruct (w <? 0) eqn:E.
  - intros H; injection H as <-. apply Z.ltb_lt in E. simpl. repeat split; lia.
  - destruct (w =? Z.of_nat (length a)) eqn:E'; [|discriminate].
    apply Z.eqb_eq in E'. intros H; injection H as <-. simpl.
    repeat split; [|lia]. subst w. now rewrite Nat2Z.id.
Qed.

(** Read back element by element, reshaped arrays are the arrays given. *)
Lemma reshape_all_flat (w : Z) (sq : list (list A)) (sq' : list (ndarray A)) :
  traverse (reshape_w1 w) sq = Return sq' ->
  map (@flat A) sq' = sq /\
  Forall (fun b => shape b = [length (flat b); 1%nat]) sq'.
Proof.
  intros H. apply traverse_Return_inv in H.
  induction H as [|a b sq sq' Hab _ [IH1 IH2]]; [split; [reflexivity | constructor]|].
  apply reshape_w1_Return_inv in Hab as (Hf & Hs & _).
  split; [simpl; now rewrite Hf, IH1 | constructor; [now rewrite Hf | exact IH2]].
Qed.

(** With a window that is not negative the reshapes go through exactly
    when every array has [w] items. *)
Lemma reshape_all_cases (w : Z) (sq : list (list A)) :
  0 <= w ->
  (Forall (fun a => Z.of_nat (length a) = w) sq /\
   traverse (reshape_w1 w) sq = Return (map (mk_ndarray [Z.to_nat w; 1%nat]) sq))
  \/
  (Exists (fun a => Z.of_nat (length a) <> w) sq /\
   traverse (reshape_w1 w) sq = Raise NumpyReshapeError).
Proof.
  intros Hw. induction sq as [|a sq IH]; [left; split; [constructor | reflexivity]|].
  simpl. unfold reshape_w1 at 1 3.
  destruct (w <? 0) eqn:E; [apply Z.ltb_lt in E; lia|].
  destruct (w =? Z.of_nat (length a)) eqn:E'.
  - apply Z.eqb_eq in E'. simpl.
    destruct IH as [[Hall ->] | [Hex ->]]; simpl.
    + left. split; [constructor; [lia | exact Hall] | reflexivity].
    + right. split; [now apply Exists_cons_tl | reflexivity].
  - apply Z.eqb_neq in E'. right. split; [apply Exists_cons_hd; lia | reflexivity].
Qed.

Lemma Forall_Exists_neg_absurd (P : list A -> Prop) (sq : list (list A)) :
  Forall P sq -> Exists (fun a => ~ P a) sq -> False.
Proof.
  intros Hall Hex. apply Exists_exists in Hex as (a & Hin & Hn).
  rewrite Forall_forall in Hall. exact (Hn (Hall a Hin)).
Qed.

End Arrays.

(** ** [transform], step by step *)

Section Transform.

Context {A : Type}.
Implicit Types (self : T2VPreprocessing A) (r : T2VPreprocessed A).

Lemma slices_NInt (cut : Z -> list A -> list A) (e : Z) (data : list (TimeSeriesData A)) :
  slices cut (NInt e) data = Return (map (fun ts => cut e (value ts)) data).
Proof. unfold slices. now apply traverse_total. Qed.

Lemma make_seq_NInt self (e : Z) : make_seq self (NInt e) = Return (retained self e).
Proof.
  unfold make_seq, retained. rewrite slices_NInt. simpl. now rewrite map_map.
Qed.

Lemma map_const_repeat {T U : Type} (u : U) (l : list T) :
  map (fun _ => u) l = repeat u (length l).
Proof. induction l; simpl; congruence. Qed.

Lemma make_label_NInt self (e : Z) : make_label self (NInt e) = Return (labels_at self e).
Proof.
  unfold make_label, labels_at. destruct (self_dummy_label self); simpl.
  - now rewrite map_const_repeat.
  - destruct (self_label self); [reflexivity|].
    rewrite slices_NInt. simpl. now rewrite map_map.
Qed.

Lemma retained_length self (e : Z) : length (retained self e) = length (self_data self).
Proof. unfold retained. apply length_map. Qed.

(** The label list is as long as the data unless the caller's labels are
    used. *)
Lemma labels_at_length self (e : Z) :
  length (labels_at self e) =
  if self_dummy_label self then length (self_data self)
  else match self_label self with
       | Some ls => length ls
       | None => length (self_data self)
       end.
Proof.
  unfold labels_at. destruct (self_dummy_label self); [apply repeat_length|].
  destruct (self_label self); apply length_map.
Qed.

(** Lines 98-142 with an integer bound. *)
Lemma build_NInt self (e : Z) :
  build (set_window self (NInt e)) (NInt e) =
  if negb (Nat.eqb (length (labels_at self e)) (length (self_data self)))
  then Raise (ValueError msg_count_mismatch)
  else seq' <- traverse (reshape_w1 e) (retained self e) ;;
       Return (mk_result seq' (labels_at self e) (self_output_size self) (NInt e) false).
Proof.
  unfold build. rewrite make_seq_NInt, make_label_NInt. simpl.
  change (retained (set_window self (NInt e)) e) with (retained self e).
  change (labels_at (set_window self (NInt e)) e) with (labels_at self e).
  rewrite retained_length. reflexivity.
Qed.

Lemma build_NFloat self (q : PrimFloat.float) ts0 rest :
  self_data self = ts0 :: rest ->
  build (set_window self (NFloat q)) (NFloat q) = Raise TypeError.
Proof.
  intros Hd. unfold build, make_seq. simpl. rewrite Hd. reflexivity.
Qed.

(** [transform] once the sanity check is passed and there is a first
    series. *)
Lemma transform_checked self ts0 rest :
  sanity_check self = Return tt -> self_data self = ts0 :: rest ->
  transform self =
  (set_window self (end_of self ts0),
   build (set_window self (end_of self ts0)) (end_of self ts0)).
Proof. intros Hc Hd. unfold transform. now rewrite Hc, Hd. Qed.

(** Everything a returned result tells about the call. *)
Lemma transform_Return_inv self r :
  snd (transform self) = Return r ->
  exists ts0 rest e,
    self_data self = ts0 :: rest /\ sanity_check self = Return tt /\
    end_of self ts0 = NInt e /\
    length (labels_at self e) = length (self_data self) /\
    traverse (reshape_w1 e) (retained self e) = Return (seq r) /\
    label r = labels_at self e /\ output_size r = self_output_size self /\
    window r = NInt e /\ batched r = false.
Proof.
  unfold transform. destruct (sanity_check self) as [[]|e0] eqn:Hc; [|discriminate].
  destruct (self_data self) as [|ts0 rest] eqn:Hd; [discriminate|]. simpl.
  destruct (end_of self ts0) as [e|q] eqn:He.
  - rewrite build_NInt, Hd.
    destruct (Nat.eqb _ _) eqn:Hn; simpl; [|discriminate].
    apply Nat.eqb_eq in Hn.
    destruct (traverse (reshape_w1 e) (retained self e)) as [sq'|e1] eqn:Hr; simpl; [|discriminate].
    intros H; injection H as <-. exists ts0, rest, e. simpl. auto 10.
  - rewrite (build_NFloat self q Hd). discriminate.
Qed.

(** And the converse: what makes the call return. *)
Lemma transform_Return_intro self ts0 rest (e : Z) (sq' : list (ndarray A)) :
  sanity_check self = Return tt -> self_data self = ts0 :: rest ->
  end_of self ts0 = NInt e ->
  length (labels_at self e) = length (self_data self) ->
  traverse (reshape_w1 e) (retained self e) = Return sq' ->
  snd (transform self) =
  Return (mk_result sq' (labels_at self e) (self_output_size self) (NInt e) false).
Proof.
  intros Hc Hd He Hn Hr. rewrite (transform_checked self Hc Hd), He. simpl.
  rewrite build_NInt, Hr. apply Nat.eqb_eq in Hn. now rewrite Hn.
Qed.

(** The reshape step inside [transform]: once the check is passed and
    there is one label per series, the call gives what the step gives. *)
Lemma transform_reshape_step self ts0 rest (e : Z) :
  sanity_check self = Return tt -> self_data self = ts0 :: rest ->
  end_of self ts0 = NInt e ->
  length (labels_at self e) = length (self_data self) ->
  snd (transform self) =
  (seq' <- _reshaping (set_window self (NInt e)) (retained self e) ;;
   Return (mk_result seq' (labels_at self e) (self_output_size self) (NInt e) false)).
Proof.
  intros Hc Hd He Hn. rewrite (transform_checked self Hc Hd), He. simpl.
  rewrite build_NInt. apply Nat.eqb_eq in Hn. now rewrite Hn.
Qed.

(** The exceptions [transform] can raise, and where. *)
Lemma reshape_all_Raise_inv (w : Z) (sq : list (list A)) (e : exn) :
  traverse (reshape_w1 w) sq = Raise e -> e = NumpyReshapeError.
Proof.
  induction sq as [|a sq IH]; simpl; [discriminate|].
  unfold reshape_w1 at 1. destruct (w <? 0); simpl.
  - destruct (traverse (reshape_w1 w) sq); simpl; [discriminate|].
    intros H; injection H as <-. now apply IH.
  - destruct (w =? Z.of_nat (length a)); simpl; [|intros H; now injection H].
    destruct (traverse (reshape_w1 w) sq); simpl; [discriminate|].
    intros H; injection H as <-. now apply IH.
Qed.

Lemma transform_Raise_inv self (e : exn) :
  snd (transform self) = Raise e ->
  sanity_check self = Raise e \/
  sanity_check self = Return tt /\
  (e = IndexError \/ e = TypeError \/ e = NumpyReshapeError \/
   e = ValueError msg_count_mismatch).
Proof.
  unfold transform. destruct (sanity_check self) as [[]|e0] eqn:Hc; [|simpl; intros H; injection H as <-; now left].
  intros H. right. split; [reflexivity|].
  destruct (self_data self) as [|ts0 rest] eqn:Hd; simpl in H; [injection H as <-; auto|].
  destruct (end_of self ts0) as [w|q] eqn:He.
  - rewrite build_NInt in H.
    destruct (negb _); [injection H as <-; auto|].
    destruct (traverse (reshape_w1 w) (retained self w)) as [sq'|e1] eqn:Hr; simpl in H;
      [discriminate|]. injection H as <-.
    apply reshape_all_Raise_inv in Hr. auto.
  - rewrite (build_NFloat self q Hd) in H. injection H as <-; auto.
Qed.

End Transform.

(** ** The sanity check *)

Section SanityCheck.

Context {A : Type}.
Implicit Types (self : T2VPreprocessing A).

(** The loop over the labels raises at the first label whose type is
    neither [int] nor [numpy.int64], and only then. *)
Lemma check_labels_cases (ls : list scalar) :
  (check_labels ls = Return tt /\ Forall (fun l => ~ other_type l) ls) \/
  (check_labels ls = Raise (ValueError msg_float_label) /\ Exists other_type ls).
Proof.
  induction ls as [|l ls IH]; [left; split; [reflexivity | constructor]|].
  simpl. destruct l; simpl.
  1, 2: destruct IH as [[-> H] | [-> H]];
    [left; split; [reflexivity | constructor; [|exact H]]
    | right; split; [reflexivity | now apply Exists_cons_tl]];
    unfold other_type; simpl; intros [H1 H2]; congruence.
  1, 2: right; split; [reflexivity | apply Exists_cons_hd];
    unfold other_type; simpl; split; discriminate.
Qed.

Lemma sanity_check_skipped self :
  is_classification (self_mode self) = false \/ self_dummy_label self = true ->
  sanity_check self = Return tt.
Proof.
  unfold sanity_check. intros [-> | ->]; [reflexivity|].
  now rewrite andb_false_r.
Qed.

(** Whatever the check raises is a [ValueError] of the module. *)
Lemma sanity_check_Raise_inv self (e : exn) :
  sanity_check self = Raise e ->
  is_classification (self_mode self) = true /\ self_dummy_label self = false /\
  (self_label self = None /\ e = ValueError msg_labels_required \/
   (exists ls, self_label self = Some ls /\ Exists other_type ls) /\
   e = ValueError msg_float_label).
Proof.
  unfold sanity_check.
  destruct (is_classification (self_mode self)); [|discriminate].
  destruct (self_dummy_label self); [discriminate|]. simpl.
  destruct (self_label self) as [ls|].
  - destruct (check_labels_cases ls) as [[-> _] | [-> Hex]]; [discriminate|].
    intros H; injection H as <-. repeat split. right. split; [now exists ls | reflexivity].
  - intros H; injection H as <-. auto.
Qed.

Lemma sanity_check_cases self :
  sanity_check self = Return tt \/ exists e, sanity_check self = Raise e.
Proof.
  destruct (sanity_check self) as [[]|e]; [now left | right; now exists e].
Qed.

Lemma transform_rejected self (e : exn) :
  sanity_check self = Raise e -> transform self = (self, Raise e).
Proof. intros H. unfold transform. now rewrite H. Qed.

End SanityCheck.

(** ** When [transform] returns *)

Section Returns.

Context {A : Type}.
Implicit Types (self : T2VPreprocessing A) (r : T2VPreprocessed A).

Lemma Forall2_map_self {T U : Type} (P : T -> U -> Prop) (g : T -> U) (l : list T) :
  (forall x, In x l -> P x (g x)) -> Forall2 P l (map g l).
Proof.
  induction l as [|x l IH]; intros H; simpl; constructor.
  - apply H. now left.
  - apply IH. intros y Hy. apply H. now right.
Qed.

Lemma apply_normalizer_length (param : T2VParam A) (a : list A) :
  length_preserving param -> length (apply_normalizer param a) = length a.
Proof.
  unfold apply_normalizer. intros H.
  destruct (normalizer param) as [f|] eqn:Hf; [now apply H | reflexivity].
Qed.

(** With series as long as the first and a window inside them, every
    retained array has [w] items. *)
Lemma retained_lengths self ts0 rest (w : Z) :
  self_data self = ts0 :: rest ->
  Forall (fun ts => len ts = len ts0) rest ->
  length_preserving (self_param self) ->
  0 <= w <= Z.of_nat (len ts0) ->
  Forall (fun a => Z.of_nat (length a) = w) (retained self w).
Proof.
  intros Hd Hall Hn Hw. unfold retained. rewrite Hd.
  apply Forall_map.
  assert (Hall' : Forall (fun ts => len ts = len ts0) (ts0 :: rest)) by now constructor.
  eapply Forall_impl; [|exact Hall'].
  intros ts Hts. rewrite apply_normalizer_length by assumption.
  apply slice_to_length. unfold len in *. lia.
Qed.

Lemma transform_returns self ts0 rest (w : Z) :
  sanity_check self = Return tt ->
  self_data self = ts0 :: rest ->
  end_of self ts0 = NInt w ->
  length (labels_at self w) = length (self_data self) ->
  Forall (fun ts => len ts = len ts0) rest ->
  length_preserving (self_param self) ->
  0 <= w <= Z.of_nat (len ts0) ->
  snd (transform self) =
  Return (mk_result (map (mk_ndarray [Z.to_nat w; 1%nat]) (retained self w))
                    (labels_at self w) (self_output_size self) (NInt w) false).
Proof.
  intros Hc Hd He Hl Hall Hn Hw.
  apply (transform_Return_intro self Hc Hd He Hl).
  destruct (reshape_all_cases (retained self w) (proj1 Hw)) as [[_ H] | [Hex _]]; [exact H|].
  exfalso. eapply Forall_Exists_neg_absurd; [|exact Hex].
  now apply (retained_lengths self Hd).
Qed.

End Returns.

(** ** The claims about [transform] *)

Section Claims.

Context {A : Type}.
Implicit Types (self : T2VPreprocessing A) (r : T2VPreprocessed A).

(** C1, as amended.  Mode "regression", no labels, no dummy flag, series
    as long as the first, a normalizer that keeps lengths, and
    0 <= [training_output_size] <= that length: [transform] returns a
    result whose [window] is the length minus [output_size], whose
    [seq] holds the first [window] values of every series (normalized
    when a normalizer is configured) with shape [window, 1], and whose
    [label] holds the values after position [window]; the two slices
    are then the first [window] values and the remaining ones. *)
Theorem transform_regression_unlabeled (param : T2VParam A)
    (data : list (TimeSeriesData A)) ts0 rest :
  data = ts0 :: rest ->
  mode param = "regression"%string ->
  equal_length data -> length_preserving param ->
  0 <= training_output_size param <= Z.of_nat (len ts0) ->
  let w := Z.of_nat (len ts0) - training_output_size param in
  (exists self r,
     __init__ param data None false = Return self /\
     snd (transform self) = Return r /\
     tail_split param data r) /\
  (forall a : list A,
     slice_to w a = firstn (Z.to_nat w) a /\ slice_from w a = skipn (Z.to_nat w) a).
Proof.
  intros -> Hm Heq Hn Hw w. simpl in Heq.
  split; [|intros a; split; [apply slice_to_firstn | apply slice_from_skipn]; subst w; lia].
  subst w.
  set (self := mk_self (ts0 :: rest) param false None (mode param)
                       (NInt (training_output_size param)) None).
  set (w := Z.of_nat (len ts0) - training_output_size param).
  assert (Hc : sanity_check self = Return tt)
    by (apply sanity_check_skipped; left; simpl; now rewrite Hm).
  assert (Hr := @transform_returns A self ts0 rest w Hc eq_refl eq_refl).
  exists self. eexists. split; [reflexivity|]. split.
  - apply Hr; auto; [|lia]. rewrite labels_at_length. reflexivity.
  - unfold tail_split. fold w. cbn [seq label window output_size]. repeat split.
    + unfold retained. rewrite map_map. apply Forall2_map_self.
      intros ts _. simpl. split; [reflexivity|].
      unfold shape_is. simpl. now rewrite Z2Nat.id by lia.
    + unfold labels_at. cbn [self_dummy_label self_label self_data self].
      now apply Forall2_map_self.
Qed.

(** C2, as amended.  In mode "classification" without the dummy flag,
    [transform] raises one of the two ValidationErrors of its label check
    exactly when the labels are absent or some label has a type other
    than [int] and [numpy.int64] (a float, but also [numpy.int32]); it
    then raises before anything is produced: the instance is as it was,
    [window] not set. *)
Theorem transform_label_check self :
  is_classification (self_mode self) = true -> self_dummy_label self = false ->
  let rejected :=
    self_label self = None \/
    exists ls, self_label self = Some ls /\ Exists other_type ls in
  (snd (transform self) = Raise (ValueError msg_labels_required) \/
   snd (transform self) = Raise (ValueError msg_float_label) <-> rejected)
  /\ (self_label self = None ->
      transform self = (self, Raise (ValueError msg_labels_required)))
  /\ (rejected -> fst (transform self) = self /\ ValidationError (snd (transform self))).
Proof.
  intros Hm Hd rejected.
  assert (Hrej : rejected -> exists e,
            sanity_check self = Raise e /\
            (e = ValueError msg_labels_required \/ e = ValueError msg_float_label) /\
            (self_label self = None -> e = ValueError msg_labels_required)).
  { unfold sanity_check. rewrite Hm, Hd. simpl. intros [-> | (ls & -> & Hex)].
    - eexists; split; [reflexivity | auto].
    - destruct (check_labels_cases ls) as [[_ Hall] | [-> _]].
      + exfalso. apply Exists_exists in Hex as (l & Hin & Hl).
        rewrite Forall_forall in Hall. exact (Hall l Hin Hl).
      + eexists; split; [reflexivity|]. split; [auto | discriminate]. }
  repeat split.
  - intros H.
    assert (Hs : exists e, sanity_check self = Raise e).
    { destruct H as [H|H]; apply transform_Raise_inv in H as [H | [_ H]];
        try (eexists; exact H);
        destruct H as [H|[H|[H|H]]]; discriminate. }
    destruct Hs as (e & Hs).
    apply sanity_check_Raise_inv in Hs as (_ & _ & [[Hl _] | [Hl _]]); [now left | now right].
  - intros H. destruct (Hrej H) as (e & Hs & He & _).
    rewrite (transform_rejected self Hs). simpl. destruct He as [-> | ->]; auto.
  - intros Hl. destruct (Hrej (or_introl Hl)) as (e & Hs & _ & He).
    rewrite (transform_rejected self Hs). now rewrite (He Hl).
  - destruct (Hrej H) as (e & Hs & _). now rewrite (transform_rejected self Hs).
  - destruct (Hrej H) as (e & Hs & He & _). rewrite (transform_rejected self Hs). simpl.
    destruct He as [-> | ->]; eexists; reflexivity.
Qed.

(** C4, as amended.  With the dummy flag set, whatever labels were
    given: when there is a first series, every series is as long as it
    and the normalizer keeps lengths, [transform] returns a result whose
    [label] list is one placeholder -1 per series and whose [window] is
    the whole length of the first series; and no result of a call with
    the dummy flag has other labels or another [window]. *)
Theorem transform_dummy self :
  self_dummy_label self = true ->
  (forall ts0 rest,
     self_data self = ts0 :: rest ->
     Forall (fun ts => length (value ts) = length (value ts0)) rest ->
     length_preserving (self_param self) ->
     exists r,
       snd (transform self) = Return r /\
       label r = repeat (Scalar (PyInt (-1))) (length (self_data self)) /\
       window r = NInt (Z.of_nat (length (value ts0))))
  /\
  (forall r, snd (transform self) = Return r ->
     label r = repeat (Scalar (PyInt (-1))) (length (self_data self)) /\
     exists ts0 rest, self_data self = ts0 :: rest /\
                      window r = NInt (Z.of_nat (length (value ts0)))).
Proof.
  intros Hd.
  assert (Hany : forall r, snd (transform self) = Return r ->
            label r = repeat (Scalar (PyInt (-1))) (length (self_data self)) /\
            exists ts0 rest, self_data self = ts0 :: rest /\
                             window r = NInt (Z.of_nat (length (value ts0)))).
  { intros r H.
    apply transform_Return_inv in H
      as (ts0 & rest & e & Hdata & _ & He & _ & _ & Hl & _ & Hw & _).
    unfold end_of in He. rewrite Hd, andb_false_r in He. injection He as <-.
    split; [rewrite Hl; unfold labels_at; now rewrite Hd|].
    now exists ts0, rest. }
  split; [|exact Hany].
  intros ts0 rest Hdata Heq Hn.
  assert (Hr : exists r, snd (transform self) = Return r).
  { eexists.
    apply (@transform_returns A self ts0 rest (Z.of_nat (len ts0))); auto.
    - apply sanity_check_skipped. now right.
    - unfold end_of. now rewrite Hd, andb_false_r.
    - rewrite labels_at_length, Hd. reflexivity.
    - unfold len. lia. }
  destruct Hr as (r & Hr). exists r. split; [exact Hr|].
  destruct (Hany r Hr) as (Hl & ts1 & rest1 & Hd1 & Hw).
  split; [exact Hl|]. rewrite Hdata in Hd1. injection Hd1 as <- <-. exact Hw.
Qed.

(** C5, as amended.  With at least one series, labels given, the dummy
    flag off and a label count that is not the series count, [transform]
    raises a ValidationError, hence returns no result; past the label
    check the error is the count mismatch. *)
Theorem transform_count_mismatch self (ls : list scalar) :
  self_dummy_label self = false ->
  self_label self = Some ls ->
  length ls <> length (self_data self) ->
  self_data self <> [] ->
  ValidationError (snd (transform self)) /\
  (sanity_check self = Return tt ->
   snd (transform self) = Raise (ValueError msg_count_mismatch)).
Proof.
  intros Hd Hl Hneq Hne.
  assert (Hpast : sanity_check self = Return tt ->
                  snd (transform self) = Raise (ValueError msg_count_mismatch)).
  { intros Hc. destruct (self_data self) as [|ts0 rest] eqn:Hdata; [contradiction|].
    rewrite (transform_checked self Hc Hdata). simpl.
    unfold end_of. rewrite Hl. simpl. rewrite build_NInt.
    rewrite labels_at_length, Hd, Hl, Hdata.
    apply Nat.eqb_neq in Hneq. now rewrite Hneq. }
  split; [|exact Hpast].
  destruct (sanity_check_cases self) as [Hc | (e & Hc)].
  - rewrite (Hpast Hc). eexists; reflexivity.
  - rewrite (transform_rejected self Hc). simpl.
    apply sanity_check_Raise_inv in Hc as (_ & _ & [[_ ->] | [_ ->]]); eexists; reflexivity.
Qed.

End Claims.

Section MoreClaims.

Context {A : Type}.
Implicit Types (self : T2VPreprocessing A) (r : T2VPreprocessed A).

Lemma reshaping_set_window self (w : Z) (sq : list (list A)) :
  _reshaping (set_window self (NInt w)) sq = traverse (reshape_w1 w) sq.
Proof. reflexivity. Qed.

(** C7, as amended.  For the window [transform] sets, when it is not
    negative and the normalizer keeps lengths: the reshape step fails
    exactly when the retained length of some series is not [window]; and
    when every series is as long as the first and [window] does not exceed
    that length, the step cannot fail and every array it gives has shape
    [window, 1]. *)
Theorem reshaping_fails_iff self ts0 rest (w : Z) :
  length_preserving (self_param self) ->
  self_data self = ts0 :: rest -> end_of self ts0 = NInt w ->
  0 <= w ->
  let step := _reshaping (set_window self (NInt w)) (retained self w) in
  (step = Raise NumpyReshapeError <->
   Exists (fun ts => Z.of_nat (length (slice_to w (value ts))) <> w) (self_data self))
  /\
  (equal_length (self_data self) -> w <= Z.of_nat (len ts0) ->
   exists seq', step = Return seq' /\ Forall (shape_is [w; 1]) seq').
Proof.
  intros Hn Hd He Hw step. subst step. rewrite reshaping_set_window.
  assert (Hlen : forall P : Z -> Prop,
            Exists (fun a => P (Z.of_nat (length a))) (retained self w) <->
            Exists (fun ts => P (Z.of_nat (length (slice_to w (value ts))))) (self_data self)).
  { intros P. unfold retained. rewrite Exists_map.
    split; apply Exists_impl; intros ts; now rewrite apply_normalizer_length. }
  split.
  - rewrite <- (Hlen (fun n => n <> w)).
    destruct (reshape_all_cases (retained self w) Hw) as [[Hall ->] | [Hex ->]].
    + split; [discriminate|]. intros Hex. exfalso.
      exact (Forall_Exists_neg_absurd Hall Hex).
    + split; auto.
  - intros Heq Hle. rewrite Hd in Heq. simpl in Heq.
    destruct (reshape_all_cases (retained self w) Hw) as [[_ ->] | [Hex _]].
    + eexists; split; [reflexivity|]. apply Forall_map, Forall_forall.
      intros a _. unfold shape_is. simpl. now rewrite Z2Nat.id.
    + exfalso. eapply Forall_Exists_neg_absurd; [|exact Hex].
      apply (retained_lengths self Hd); auto.
Qed.

Lemma transform_again self ts0 rest :
  sanity_check self = Return tt -> self_data self = ts0 :: rest ->
  transform (set_window self (end_of self ts0)) =
  (set_window self (end_of self ts0),
   build (set_window self (end_of self ts0)) (end_of self ts0)).
Proof.
  intros Hc Hd.
  exact (@transform_checked A (set_window self (end_of self ts0)) ts0 rest Hc Hd).
Qed.

(** C8.  A second call of [transform] on the instance the first call
    leaves behind gives what the first call gave: the same result, field
    by field, or the same exception; the instance does not change
    again. *)
Theorem transform_idempotent self :
  transform (fst (transform self)) = transform self.
Proof.
  destruct (sanity_check_cases self) as [Hc | (e & Hc)].
  - destruct (self_data self) as [|ts0 rest] eqn:Hd.
    + assert (H : transform self = (self, Raise IndexError))
        by (unfold transform; now rewrite Hc, Hd).
      now rewrite H.
    + rewrite (transform_checked self Hc Hd). simpl.
      apply (transform_again self Hc Hd).
  - rewrite (transform_rejected self Hc). simpl. apply (transform_rejected self Hc).
Qed.

(** C9.  Without labels, without the dummy flag and with a normalizer
    [f]: the labels of a result are the tails of the raw values, and [f]
    has only been applied to the leading parts that make up [seq].  Such
    a result is returned when the mode is not "classification", the series
    are as long as the first, [f] keeps lengths and [output_size] lies
    between 0 and that length; [seq[i]] is then [f] of the first [window]
    values and [label[i]] the remaining [output_size] raw values.  In
    general [values[:w]] and [values[w:]] cut a series at [w] counted from
    its start, or from its end when [w] is negative. *)
Theorem transform_labels_raw self (f : list A -> list A) :
  self_label self = None -> self_dummy_label self = false ->
  normalizer (self_param self) = Some f ->
  (forall r, snd (transform self) = Return r ->
     exists ts0 rest w,
       self_data self = ts0 :: rest /\
       num_sub (Z.of_nat (length (value ts0))) (self_output_size self) = NInt w /\
       window r = NInt w /\
       label r = map (fun ts => Array (slice_from w (value ts))) (self_data self) /\
       map (@flat A) (seq r) = map (fun ts => f (slice_to w (value ts))) (self_data self))
  /\
  (forall ts0 rest out,
     self_data self = ts0 :: rest ->
     Forall (fun ts => length (value ts) = length (value ts0)) rest ->
     is_classification (self_mode self) = false ->
     (forall a, length (f a) = length a) ->
     self_output_size self = NInt out -> 0 <= out <= Z.of_nat (length (value ts0)) ->
     let w := Z.of_nat (length (value ts0)) - out in
     exists r,
       snd (transform self) = Return r /\
       window r = NInt w /\
       label r = map (fun ts => Array (skipn (Z.to_nat w) (value ts))) (self_data self) /\
       map (@flat A) (seq r) =
         map (fun ts => f (firstn (Z.to_nat w) (value ts))) (self_data self))
  /\
  (forall (w : Z) (a : list A),
     let k := Z.to_nat (if w <? 0 then Z.max 0 (w + Z.of_nat (length a)) else w) in
     slice_to w a = firstn k a /\ slice_from w a = skipn k a).
Proof.
  intros Hl Hd Hf.
  assert (Hany : forall r, snd (transform self) = Return r ->
     exists ts0 rest w,
       self_data self = ts0 :: rest /\
       num_sub (Z.of_nat (length (value ts0))) (self_output_size self) = NInt w /\
       window r = NInt w /\
       label r = map (fun ts => Array (slice_from w (value ts))) (self_data self) /\
       map (@flat A) (seq r) = map (fun ts => f (slice_to w (value ts))) (self_data self)).
  { intros r H.
    apply transform_Return_inv in H
      as (ts0 & rest & e & Hdata & _ & He & _ & Hsq & Hlab & _ & Hw & _).
    exists ts0, rest, e. unfold end_of in He. rewrite Hl, Hd in He. simpl in He.
    repeat split; auto.
    + rewrite Hlab. unfold labels_at. now rewrite Hd, Hl.
    + apply reshape_all_flat in Hsq as [-> _]. unfold retained, apply_normalizer.
      now rewrite Hf. }
  split; [exact Hany|]. split.
  - intros ts0 rest out Hdata Heq Hm Hlen Ho Hout w.
    assert (Hr : exists r, snd (transform self) = Return r).
    { eexists.
      apply (@transform_returns A self ts0 rest (Z.of_nat (len ts0) - out)); auto.
      + apply sanity_check_skipped. now left.
      + unfold end_of. now rewrite Hl, Hd, Ho.
      + rewrite labels_at_length, Hd, Hl. reflexivity.
      + intros g Hg a. rewrite Hf in Hg. injection Hg as <-. apply Hlen.
      + unfold len. lia. }
    destruct Hr as (r & Hr). exists r. split; [exact Hr|].
    destruct (Hany r Hr) as (ts1 & rest1 & w1 & Hd1 & Hw1 & Hwin & Hlab & Hseq).
    rewrite Hdata in Hd1. injection Hd1 as <- <-.
    rewrite Ho in Hw1. simpl in Hw1. injection Hw1 as <-. fold w in Hwin, Hlab, Hseq.
    split; [exact Hwin|]. split.
    + rewrite Hlab. apply map_ext. intros ts. now rewrite slice_from_skipn by (subst w; lia).
    + rewrite Hseq. apply map_ext. intros ts. now rewrite slice_to_firstn by (subst w; lia).
  - intros w a k. subst k. unfold slice_to, slice_from, slice_index.
    destruct (w <? 0) eqn:E; [split; reflexivity|].
    apply Z.ltb_ge in E.
    destruct (Z.le_gt_cases w (Z.of_nat (length a))) as [H|H].
    + rewrite Z.min_l by exact H. split; reflexivity.
    + rewrite Z.min_r, Nat2Z.id by lia.
      rewrite firstn_all, skipn_all. split; symmetry.
      * apply firstn_all2. lia.
      * apply skipn_all2. lia.
Qed.

(** C10, as amended.  When the mode is not "classification" or the dummy
    flag is set, [transform] does not look at the types of the labels: the
    check is passed and no float-label error is raised.  With one label
    per series (series as long as the first, a normalizer that keeps
    lengths) labels of any type are accepted; they come back unchanged
    when the dummy flag is off, and as placeholders -1 when it is set. *)
Theorem transform_labels_unchecked self :
  is_classification (self_mode self) = false \/ self_dummy_label self = true ->
  sanity_check self = Return tt /\
  snd (transform self) <> Raise (ValueError msg_float_label) /\
  (equal_length (self_data self) -> length_preserving (self_param self) ->
   forall ls, self_label self = Some ls ->
   length ls = length (self_data self) ->
   exists r, snd (transform self) = Return r /\
             label r = if self_dummy_label self
                       then repeat (Scalar (PyInt (-1))) (length (self_data self))
                       else map Scalar ls).
Proof.
  intros Hm. assert (Hc := sanity_check_skipped self Hm). repeat split; [exact Hc| |].
  - intros H. apply transform_Raise_inv in H as [H | [_ [H|[H|[H|H]]]]];
      try discriminate. rewrite Hc in H. discriminate.
  - intros Heq Hn ls Hl Hlen.
    destruct (self_data self) as [|ts0 rest] eqn:Hdata; [contradiction|].
    simpl in Heq. eexists. split.
    + apply (@transform_returns A self ts0 rest (Z.of_nat (len ts0))); auto.
      * unfold end_of. now rewrite Hl.
      * rewrite labels_at_length, Hl, Hdata. now destruct (self_dummy_label self).
      * lia.
    + cbn [label]. unfold labels_at. now rewrite Hl, Hdata.
Qed.

End MoreClaims.

(** ** The claims on the sample inputs *)

Module Examples.

Import Sample.

Lemma regression_length_preserving (n : Z) : length_preserving (regression n).
Proof. intros f H. discriminate. Qed.

Lemma classification_length_preserving : length_preserving classification.
Proof. intros f H. discriminate. Qed.

Lemma doubling_length_preserving (n : Z) : length_preserving (doubling n).
Proof. intros f H a. injection H as <-. apply length_map. Qed.

Lemma one_series_equal_length : equal_length one_series.
Proof. constructor. Qed.

Lemma two_series_equal_length : equal_length two_series.
Proof. repeat constructor. Qed.

(** The sample instances are what the constructor builds. *)
Example sample_instances :
  __init__ (regression 2) two_series None false = Return scenario_A /\
  __init__ (doubling 2) two_series None false = Return scenario_A_doubled /\
  __init__ classification two_series (Some [PyInt 0; PyFloat 1.5%float]) false =
    Return scenario_C /\
  __init__ classification two_series (Some [PyInt 0; PyFloat 1.5%float]) true =
    Return scenario_D /\
  __init__ classification two_series (Some [PyInt 0; PyInt 1; PyInt 2]) false =
    Return scenario_E /\
  __init__ (regression 1) two_series (Some [PyFloat 0.5%float; PyInt 7]) false =
    Return float_labels.
Proof. repeat split. Qed.

(** [np.max(label) + 1] in machine numbers: the largest int64 and the
    largest int32 wrap around; a Python int beside a negative one beyond
    int64 makes the array, and the sum, a float; a float sum rounds; a
    NaN label wins the maximum. *)
Example output_size_machine_numbers :
  (m <- np_max [PyInt (2 ^ 63 - 1)] ;; Return (num_succ m)) = Return (NInt (- 2 ^ 63)) /\
  (m <- np_max [NpInt32 (2 ^ 31 - 1)] ;; Return (num_succ m)) = Return (NInt (- 2 ^ 31)) /\
  (m <- np_max [NpInt32 (2 ^ 31 - 1); PyInt 0] ;; Return (num_succ m)) =
    Return (NInt (2 ^ 31)) /\
  (m <- np_max [PyInt (2 ^ 63); PyInt (-1)] ;; Return (num_succ m)) =
    Return (NFloat 9223372036854775808%float) /\
  (m <- np_max [PyFloat 9007199254740992%float; PyInt 1] ;; Return (num_succ m)) =
    Return (NFloat 9007199254740992%float) /\
  (m <- np_max [PyFloat 1.5%float; PyFloat nan; PyInt 3] ;; Return (num_succ m)) =
    Return (NFloat nan) /\
  (m <- np_max [PyFloat infinity; PyInt 3] ;; Return (num_succ m)) =
    Return (NFloat infinity).
Proof. repeat split. Qed.

(** Scenario A, on two series of length 5: [window] is 3. *)
Example scenario_A :
  snd (transform (instance (regression 2) two_series None false (NInt 2))) =
  Return (mk_result [mk_ndarray [3%nat; 1%nat] [1; 2; 3]; mk_ndarray [3%nat; 1%nat] [6; 7; 8]]
                    [Array [4; 5]; Array [9; 10]] (NInt 2) (NInt 3) false).
Proof. reflexivity. Qed.

(** Scenario B. *)
Example scenario_B :
  __init__ classification two_series (Some [PyInt 0; PyInt 2]) false =
  Return (instance classification two_series (Some [PyInt 0; PyInt 2]) false (NInt 3)) /\
  snd (transform (instance classification two_series (Some [PyInt 0; PyInt 2]) false (NInt 3))) =
  Return (mk_result [mk_ndarray [5%nat; 1%nat] [1; 2; 3; 4; 5];
                     mk_ndarray [5%nat; 1%nat] [6; 7; 8; 9; 10]]
                    [Scalar (PyInt 0); Scalar (PyInt 2)] (NInt 3) (NInt 5) false).
Proof. split; reflexivity. Qed.

(** A window of -1: the reshape infers the first dimension. *)
Example window_minus_one :
  snd (transform (instance (regression 4) one_series None false (NInt 4))) =
  Return (mk_result [mk_ndarray [2%nat; 1%nat] [1; 2]] [Array [3]]
                    (NInt 4) (NInt (-1)) false).
Proof. reflexivity. Qed.

(** A negative [training_output_size]: the window exceeds the series and
    the reshape fails although there is a single series. *)
Example window_too_large :
  snd (transform (instance (regression (-1)) one_series None false (NInt (-1)))) =
  Raise NumpyReshapeError.
Proof. reflexivity. Qed.

(** A [numpy.int32] label is an integer and is rejected like a float. *)
Example int32_label_rejected :
  snd (transform (instance classification one_series (Some [NpInt32 0]) false (NInt 1))) =
  Raise (ValueError msg_float_label).
Proof. reflexivity. Qed.

(** No series at all: the first one is missed before anything else. *)
Example no_series :
  snd (transform (instance (regression 1) [] None true (NInt 1))) = Raise IndexError.
Proof. reflexivity. Qed.

End Examples.

(** ** Counterexamples to the claims as stated *)

(** C1 as stated fails: one series of three values and
    [training_output_size] 4.  [transform] returns [window] = -1, a [seq]
    of the two leading values with shape [2, 1] and the last value as
    label. *)
Lemma regression_claim_fails :
  snd (transform (Sample.instance (Sample.regression 4) Sample.one_series None false
                                  (NInt 4))) =
    Return (mk_result [mk_ndarray [2%nat; 1%nat] [1; 2]] [Array [3]]
                      (NInt 4) (NInt (-1)) false) /\
  ~ regression_claim (Sample.regression 4) Sample.one_series.
Proof.
  split; [reflexivity|]. intros H.
  destruct (H eq_refl Examples.one_series_equal_length
              (@Examples.regression_length_preserving 4))
    as (self & r & Hi & Ht & Hs).
  injection Hi as <-. vm_compute in Ht. injection Ht as <-.
  destruct Hs as (_ & _ & Hseq & _). simpl in Hseq.
  inversion Hseq as [|ts a l l' [_ Hshape] _]; subst. discriminate Hshape.
Qed.

(** C2 as stated fails: three integer labels for two series.  Labels are
    present and of an integer type, and a ValidationError is raised all
    the same, for the count. *)
Lemma classification_claim_fails :
  exists self,
    __init__ Sample.classification Sample.two_series
             (Some [PyInt 0; PyInt 1; PyInt 2]) false = Return self /\
    snd (transform self) = Raise (ValueError msg_count_mismatch) /\
    ~ classification_claim self.
Proof.
  eexists. split; [reflexivity|]. split; [reflexivity|].
  intros H. destruct (H eq_refl eq_refl) as [H1 _].
  destruct H1 as [H1 | (ls & Hls & Hex)].
  - eexists; reflexivity.
  - discriminate H1.
  - injection Hls as <-.
    repeat (inversion Hex as [l ls' Hl | l ls' Hex']; subst; [discriminate Hl|];
            clear Hex; rename Hex' into Hex).
    inversion Hex.
Qed.

(** C5 as stated fails: one label and no series.  The counts differ, and
    [transform] raises an [IndexError] at [self.data[0]]. *)
Lemma count_mismatch_claim_fails :
  exists self,
    __init__ (Sample.regression 1) [] (Some [PyInt 0]) false = Return self /\
    snd (transform self) = Raise IndexError /\
    ~ count_mismatch_claim self.
Proof.
  eexists. split; [reflexivity|]. split; [reflexivity|].
  intros H. destruct (H eq_refl _ eq_refl) as (msg & Hmsg).
  - simpl. discriminate.
  - discriminate Hmsg.
Qed.

(** C6 as stated fails: mode "classification" and an empty label list;
    [np.max] raises in the constructor. *)
Lemma construction_claim_fails :
  __init__ Sample.classification Sample.two_series (Some []) false =
    Raise NumpyEmptyReduction /\
  ~ construction_claim Sample.classification Sample.two_series (Some []) false.
Proof.
  split; [reflexivity|]. intros (self & H). discriminate H.
Qed.

(** C7 as stated fails: one series of three values and
    [training_output_size] 4.  The window is -1 and the retained length 2,
    yet the reshape step does not fail. *)
Lemma reshape_claim_fails :
  exists self,
    __init__ (Sample.regression 4) Sample.one_series None false = Return self /\
    end_of self (mk_ts [1; 2; 3]) = NInt (-1) /\
    _reshaping (set_window self (NInt (-1))) (retained self (-1)) =
      Return [mk_ndarray [2%nat; 1%nat] [1; 2]] /\
    ~ reshape_claim self.
Proof.
  eexists. split; [reflexivity|]. split; [reflexivity|]. split; [reflexivity|].
  intros H.
  destruct (H (@Examples.regression_length_preserving 4) _ _ (-1) eq_refl eq_refl)
    as [[_ Hfail] _].
  assert (Hstep : @Return (list (ndarray Z)) [mk_ndarray [2%nat; 1%nat] [1; 2]] =
                  Raise NumpyReshapeError).
  { apply Hfail. apply Exists_cons_hd. simpl. discriminate. }
  discriminate Hstep.
Qed.

(** C10 as stated fails: the dummy flag set and one float label for one
    series.  The label is accepted, and does not come back: the result
    carries the placeholder. *)
Lemma unchecked_labels_claim_fails :
  exists self,
    __init__ (Sample.regression 1) Sample.one_series (Some [PyFloat 1.5%float]) true =
      Return self /\
    ~ unchecked_labels_claim self.
Proof.
  eexists. split; [reflexivity|].
  intros H.
  destruct (H (or_intror eq_refl) Examples.one_series_equal_length
              (@Examples.regression_length_preserving 1) _ eq_refl eq_refl)
    as (r & Hr & Hl).
  injection Hr as <-. discriminate Hl.
Qed.

(** C3 as stated fails: mode "classification" and the labels 0 and
    2^63 - 1, the largest int64.  [np.max(label) + 1] is computed in
    int64 and wraps around: the constructor stores -2^63. *)
Lemma output_size_claim_fails :
  __init__ Sample.classification Sample.two_series
           (Some [PyInt 0; PyInt (2 ^ 63 - 1)]) false =
    Return (Sample.instance Sample.classification Sample.two_series
                            (Some [PyInt 0; PyInt (2 ^ 63 - 1)]) false (NInt (- 2 ^ 63))) /\
  ~ output_size_claim Sample.classification Sample.two_series
                      (Some [PyInt 0; PyInt (2 ^ 63 - 1)]) false.
Proof.
  split; [reflexivity|]. intros H.
  destruct (H _ eq_refl) as [H1 _].
  destruct (H1 _ eq_refl eq_refl eq_refl) as (m & Hin & _ & Hout).
  destruct Hin as [<- | [<- | []]]; vm_compute in Hout; discriminate Hout.
Qed.

(** C4 as stated fails: the dummy flag and no series at all.  There is
    no first series to take a window from: [transform] raises an
    [IndexError] at [self.data[0]] and gives no label list. *)
Lemma dummy_claim_fails :
  exists self,
    __init__ (Sample.regression 1) [] None true = Return self /\
    snd (transform self) = Raise IndexError /\
    ~ dummy_claim self.
Proof.
  eexists. split; [reflexivity|]. split; [reflexivity|].
  intros H. destruct (H eq_refl) as (r & Hr & _).
  - intros ts0 rest Hd. discriminate Hd.
  - intros f Hf. discriminate Hf.
  - discriminate Hr.
Qed.

(** ** The theorems at work on the sample inputs *)

Lemma transform_regression_unlabeled_witness :
  (exists self r,
     __init__ (Sample.regression 2) Sample.two_series None false = Return self /\
     snd (transform self) = Return r /\
     tail_split (Sample.regression 2) Sample.two_series r) /\
  (forall a : list Z, slice_to 3 a = firstn 3 a /\ slice_from 3 a = skipn 3 a).
Proof.
  apply (@transform_regression_unlabeled Z (Sample.regression 2) Sample.two_series
           (mk_ts [1; 2; 3; 4; 5]) [mk_ts [6; 7; 8; 9; 10]]).
  - reflexivity.
  - reflexivity.
  - simpl. repeat constructor.
  - intros f Hf. discriminate Hf.
  - simpl. lia.
Defined.

Lemma transform_label_check_witness :
  let self := Sample.scenario_C in
  let rejected :=
    self_label self = None \/
    exists ls, self_label self = Some ls /\ Exists other_type ls in
  (snd (transform self) = Raise (ValueError msg_labels_required) \/
   snd (transform self) = Raise (ValueError msg_float_label) <-> rejected)
  /\ (self_label self = None ->
      transform self = (self, Raise (ValueError msg_labels_required)))
  /\ (rejected -> fst (transform self) = self /\ ValidationError (snd (transform self))).
Proof.
  apply (@transform_label_check Z Sample.scenario_C); reflexivity.
Defined.

Lemma init_output_size_witness :
  __init__ Sample.classification Sample.two_series (Some [PyInt 0; PyInt 2]) false =
    Return (Sample.instance Sample.classification Sample.two_series
                            (Some [PyInt 0; PyInt 2]) false (NInt 3)) /\
  exists m, In m [PyInt 0; PyInt 2] /\
            Forall (fun l => as_Z l <= as_Z m) [PyInt 0; PyInt 2] /\
            NInt 3 = NInt (as_Z m + 1).
Proof.
  split; [reflexivity|].
  apply (proj1 (@init_output_size Z Sample.classification Sample.two_series
                  (Some [PyInt 0; PyInt 2]) false _ eq_refl)
               [PyInt 0; PyInt 2] eq_refl eq_refl).
  repeat constructor; try (intros [H _]; now apply H); vm_compute; discriminate.
Defined.

Lemma transform_dummy_witness :
  exists r,
    snd (transform Sample.scenario_D) = Return r /\
    label r = [Scalar (PyInt (-1)); Scalar (PyInt (-1))] /\
    window r = NInt 5.
Proof.
  apply (proj1 (@transform_dummy Z Sample.scenario_D eq_refl)
               (mk_ts [1; 2; 3; 4; 5]) [mk_ts [6; 7; 8; 9; 10]]).
  - reflexivity.
  - repeat constructor.
  - intros f Hf. discriminate Hf.
Defined.

Lemma transform_count_mismatch_witness :
  let self := Sample.scenario_E in
  ValidationError (snd (transform self)) /\
  (sanity_check self = Return tt ->
   snd (transform self) = Raise (ValueError msg_count_mismatch)).
Proof.
  apply (@transform_count_mismatch Z Sample.scenario_E [PyInt 0; PyInt 1; PyInt 2]).
  - reflexivity.
  - reflexivity.
  - simpl. lia.
  - simpl. discriminate.
Defined.

Lemma reshaping_fails_iff_witness :
  let self := Sample.scenario_A in
  let step := _reshaping (set_window self (NInt 3)) (retained self 3) in
  (step = Raise NumpyReshapeError <->
   Exists (fun ts => Z.of_nat (length (slice_to 3 (value ts))) <> 3) (self_data self))
  /\
  (equal_length (self_data self) -> 3 <= Z.of_nat 5 ->
   exists seq', step = Return seq' /\ Forall (shape_is [3; 1]) seq').
Proof.
  apply (@reshaping_fails_iff Z Sample.scenario_A (mk_ts [1; 2; 3; 4; 5])
           [mk_ts [6; 7; 8; 9; 10]] 3).
  - intros f Hf. discriminate Hf.
  - reflexivity.
  - reflexivity.
  - lia.
Defined.

Lemma transform_labels_raw_witness :
  exists r,
    snd (transform Sample.scenario_A_doubled) = Return r /\
    window r = NInt 3 /\
    label r = [Array [4; 5]; Array [9; 10]] /\
    map (@flat Z) (seq r) = [[2; 4; 6]; [12; 14; 16]].
Proof.
  apply (proj1 (proj2 (@transform_labels_raw Z Sample.scenario_A_doubled (map (Z.mul 2))
                         eq_refl eq_refl eq_refl))
               (mk_ts [1; 2; 3; 4; 5]) [mk_ts [6; 7; 8; 9; 10]] 2).
  - reflexivity.
  - repeat constructor.
  - reflexivity.
  - intros a. apply length_map.
  - reflexivity.
  - simpl. lia.
Defined.

Lemma transform_labels_unchecked_witness :
  let self := Sample.float_labels in
  sanity_check self = Return tt /\
  snd (transform self) <> Raise (ValueError msg_float_label) /\
  (equal_length (self_data self) -> length_preserving (self_param self) ->
   forall ls, self_label self = Some ls ->
   length ls = length (self_data self) ->
   exists r, snd (transform self) = Return r /\
             label r = if self_dummy_label self
                       then repeat (Scalar (PyInt (-1))) (length (self_data self))
                       else map Scalar ls).
Proof.
  apply (@transform_labels_unchecked Z Sample.float_labels). left. reflexivity.
Defined.

(** * Further properties of the class *)

Section CallAnatomy.

Context {A : Type}.
Implicit Types (self : T2VPreprocessing A) (r : T2VPreprocessed A).

(** The three ways a call of [transform] can go: the label check raises;
    there is no series; or [window] is set and lines 98-142 run. *)
Lemma transform_cases self :
  (exists e, sanity_check self = Raise e /\ transform self = (self, Raise e)) \/
  (sanity_check self = Return tt /\ self_data self = [] /\
   transform self = (self, Raise IndexError)) \/
  (exists ts0 rest,
     sanity_check self = Return tt /\ self_data self = ts0 :: rest /\
     fst (transform self) = set_window self (end_of self ts0) /\
     ((exists q, end_of self ts0 = NFloat q /\ snd (transform self) = Raise TypeError) \/
      (exists w, end_of self ts0 = NInt w /\
         (snd (transform self) = Raise (ValueError msg_count_mismatch) \/
          snd (transform self) = Raise NumpyReshapeError \/
          exists r, snd (transform self) = Return r)))).
Proof.
  destruct (sanity_check_cases self) as [Hc | (e & Hc)].
  - destruct (self_data self) as [|ts0 rest] eqn:Hd.
    + right; left. split; [exact Hc|]. split; [reflexivity|].
      unfold transform. now rewrite Hc, Hd.
    + right; right. exists ts0, rest. rewrite (transform_checked self Hc Hd). simpl.
      split; [exact Hc|]. split; [reflexivity|]. split; [reflexivity|].
      destruct (end_of self ts0) as [w|q] eqn:He.
      * right. exists w. split; [reflexivity|]. rewrite build_NInt.
        destruct (negb _); [now left|]. right.
        destruct (traverse (reshape_w1 w) (retained self w)) as [sq'|e1] eqn:Hr; simpl.
        -- right. eexists; reflexivity.
        -- left. now rewrite (reshape_all_Raise_inv _ _ Hr).
      * left. exists q. split; [reflexivity|]. apply (build_NFloat self q Hd).
  - left. exists e. split; [exact Hc | apply (transform_rejected self Hc)].
Qed.

Lemma sanity_check_Raise_ValueError self (e : exn) :
  sanity_check self = Raise e ->
  e = ValueError msg_labels_required \/ e = ValueError msg_float_label.
Proof.
  intros H. apply sanity_check_Raise_inv in H as (_ & _ & [[_ ->] | [_ ->]]); auto.
Qed.

(** An instance out of the constructor has an integer bound: the tail is
    only cut off when there are no labels, and [output_size] is then the
    configured integer. *)
Lemma init_end_of_integer (param : T2VParam A) (data : list (TimeSeriesData A))
    (label : option (list scalar)) (dummy_label : bool) self ts0 :
  __init__ param data label dummy_label = Return self ->
  exists w, end_of self ts0 = NInt w.
Proof.
  unfold __init__. intros H.
  destruct label as [ls|].
  - apply bind_Return_inv in H as (out & _ & H). injection H as <-.
    unfold end_of. simpl. eexists; reflexivity.
  - simpl in H. injection H as <-. unfold end_of. simpl.
    destruct dummy_label; simpl; eexists; reflexivity.
Qed.

End CallAnatomy.

Section InstanceAndErrors.

Context {A : Type}.
Implicit Types (self : T2VPreprocessing A) (r : T2VPreprocessed A).

(** X1.  What a call of [transform] does to the instance.  It never
    touches [data], [param], [dummy_label], [label], [mode] or
    [output_size].  When it raises at the label check or for want of a
    first series, the instance is exactly as it was; when it raises the
    count mismatch or the reshape error, [window] has been written all the
    same. *)
Theorem transform_instance_effect self :
  (self_data (fst (transform self)) = self_data self /\
   self_param (fst (transform self)) = self_param self /\
   self_dummy_label (fst (transform self)) = self_dummy_label self /\
   self_label (fst (transform self)) = self_label self /\
   self_mode (fst (transform self)) = self_mode self /\
   self_output_size (fst (transform self)) = self_output_size self)
  /\
  (forall msg, snd (transform self) = Raise IndexError \/
               snd (transform self) = Raise (ValueError msg) /\ msg <> msg_count_mismatch ->
     fst (transform self) = self)
  /\
  (snd (transform self) = Raise (ValueError msg_count_mismatch) \/
   snd (transform self) = Raise NumpyReshapeError ->
   exists ts0 rest, self_data self = ts0 :: rest /\
                    self_window (fst (transform self)) = Some (end_of self ts0)).
Proof.
  destruct (transform_cases self)
    as [(e & Hc & Ht) | [(Hc & Hd & Ht) | (ts0 & rest & Hc & Hd & Hf & Ho)]].
  - rewrite Ht. simpl. split; [auto 10|]. split; [reflexivity|].
    apply sanity_check_Raise_ValueError in Hc.
    intros [H|H]; destruct Hc as [-> | ->]; discriminate H.
  - rewrite Ht. simpl. split; [auto 10|]. split; [reflexivity|].
    intros [H|H]; discriminate H.
  - rewrite Hf. simpl. split; [auto 10|]. split.
    + intros msg H.
      destruct Ho as [(q & _ & Ho) | (w & _ & [Ho | [Ho | (r & Ho)]])]; rewrite Ho in H;
        destruct H as [H | [H Hm]]; try discriminate H.
      injection H as <-. now contradiction Hm.
    + intros _. exists ts0, rest. split; [exact Hd | reflexivity].
Qed.

(** X2.  The exceptions of an instance that comes out of the constructor:
    the three [ValueError]s of the module, [IndexError] and the reshape
    error of numpy; a slice is never given a non-integer bound and
    [window] is never read before it is set. *)
Theorem transform_exceptions (param : T2VParam A) (data : list (TimeSeriesData A))
    (label : option (list scalar)) (dummy_label : bool) self (e : exn) :
  __init__ param data label dummy_label = Return self ->
  snd (transform self) = Raise e ->
  e = ValueError msg_labels_required \/ e = ValueError msg_float_label \/
  e = ValueError msg_count_mismatch \/ e = IndexError \/ e = NumpyReshapeError.
Proof.
  intros Hi H.
  destruct (transform_cases self)
    as [(e0 & Hc & Ht) | [(Hc & Hd & Ht) | (ts0 & rest & Hc & Hd & Hf & Ho)]].
  - rewrite Ht in H. injection H as <-.
    apply sanity_check_Raise_ValueError in Hc as [-> | ->]; auto.
  - rewrite Ht in H. injection H as <-. auto.
  - destruct Ho as [(q & He & _) | (w & _ & [Ho | [Ho | (r & Ho)]])].
    + destruct (init_end_of_integer _ _ _ _ ts0 Hi) as (w & Hw). congruence.
    + rewrite Ho in H. injection H as <-. auto.
    + rewrite Ho in H. injection H as <-. auto 6.
    + rewrite Ho in H. discriminate H.
Qed.

(** X3.  No series: [transform] returns nothing.  It raises [IndexError]
    exactly when the data list is empty and the label check is passed
    (the check comes first and does not need the data). *)
Theorem transform_IndexError_iff self :
  (snd (transform self) = Raise IndexError <->
   self_data self = [] /\ sanity_check self = Return tt)
  /\
  (self_data self = [] -> forall r, snd (transform self) <> Return r).
Proof.
  destruct (transform_cases self)
    as [(e0 & Hc & Ht) | [(Hc & Hd & Ht) | (ts0 & rest & Hc & Hd & Hf & Ho)]].
  - rewrite Ht. simpl. split; [|discriminate].
    split.
    + intros H. injection H as ->.
      apply sanity_check_Raise_ValueError in Hc as [Hc | Hc]; discriminate Hc.
    + intros [_ H]. rewrite Hc in H. discriminate H.
  - rewrite Ht. simpl. split; [split; auto | discriminate].
  - split; [|intros H; rewrite Hd in H; discriminate H].
    split.
    + intros H.
      destruct Ho as [(q & _ & Ho) | (w & _ & [Ho | [Ho | (r & Ho)]])]; rewrite Ho in H;
        discriminate H.
    + intros [H _]. rewrite Hd in H. discriminate H.
Qed.

Lemma traverse_length {T U : Type} (f : T -> outcome U) (l : list T) (ys : list U) :
  traverse f l = Return ys -> length ys = length l.
Proof.
  intros H. apply traverse_Return_inv in H.
  induction H; simpl; congruence.
Qed.

(** X4.  A result against the call that gave it: one array in [seq] and
    one entry in [label] per series, [batched] false, [output_size] the
    one stored by the constructor, and [window] the one the call has left
    on the instance. *)
Theorem transform_result_consistent self r :
  snd (transform self) = Return r ->
  length (seq r) = length (self_data self) /\
  length (label r) = length (self_data self) /\
  batched r = false /\
  output_size r = self_output_size self /\
  self_window (fst (transform self)) = Some (window r).
Proof.
  intros H.
  destruct (transform_Return_inv self H)
    as (ts0 & rest & e & Hd & Hc & He & Hn & Hsq & Hl & Ho & Hw & Hb).
  repeat split; auto.
  - rewrite (traverse_length _ _ Hsq). apply retained_length.
  - now rewrite Hl.
  - rewrite (transform_checked self Hc Hd). simpl. now rewrite He, Hw.
Qed.

End InstanceAndErrors.

Section Results.

Context {A : Type}.
Implicit Types (self : T2VPreprocessing A) (r : T2VPreprocessed A).

(** X5.  Reading [seq] back.  Whatever the mode and the labels, every
    array of a result is a column, of shape [n, 1] for its [n] values, and
    its values in order are the normalizer applied to [values[:window]]
    of its series: the reshape moves nothing. *)
Theorem transform_seq_round_trip self r :
  snd (transform self) = Return r ->
  exists w,
    window r = NInt w /\
    map (@flat A) (seq r) =
      map (fun ts => apply_normalizer (self_param self) (slice_to w (value ts)))
          (self_data self) /\
    Forall (fun a => shape a = [length (flat a); 1%nat]) (seq r).
Proof.
  intros H.
  destruct (transform_Return_inv self H)
    as (ts0 & rest & e & _ & _ & _ & _ & Hsq & _ & _ & Hw & _).
  exists e. split; [exact Hw|]. apply reshape_all_flat in Hsq as [Hflat Hshape].
  split; [exact Hflat | exact Hshape].
Qed.

(** X6.  Nothing of a series is lost or used twice.  Without labels,
    without the dummy flag and without a normalizer, in every result
    [seq[i]] followed by [label[i]] is series [i], also when
    [training_output_size] is larger than the series and the window is
    negative. *)
Theorem transform_split_complete self r :
  self_label self = None -> self_dummy_label self = false ->
  normalizer (self_param self) = None ->
  snd (transform self) = Return r ->
  forall i ts a l,
    nth_error (self_data self) i = Some ts ->
    nth_error (seq r) i = Some a ->
    nth_error (label r) i = Some l ->
    exists t, l = Array t /\ flat a ++ t = value ts.
Proof.
  intros Hl Hd Hn H i ts a l Hts Ha Hlab.
  destruct (transform_Return_inv self H)
    as (ts0 & rest & e & _ & _ & _ & _ & Hsq & Hlr & _ & _ & _).
  apply reshape_all_flat in Hsq as [Hflat _].
  exists (slice_from e (value ts)). split.
  - rewrite Hlr in Hlab. unfold labels_at in Hlab. rewrite Hd, Hl, nth_error_map, Hts in Hlab.
    simpl in Hlab. now injection Hlab as <-.
  - assert (Hfa : nth_error (map (@flat A) (seq r)) i = Some (flat a))
      by (rewrite nth_error_map, Ha; reflexivity).
    rewrite Hflat in Hfa. unfold retained, apply_normalizer in Hfa.
    rewrite Hn, nth_error_map, Hts in Hfa. simpl in Hfa. injection Hfa as <-.
    apply slice_to_from.
Qed.

Lemma slice_to_length_min (w : Z) (a : list A) :
  0 <= w -> Z.of_nat (length (slice_to w a)) = Z.min w (Z.of_nat (length a)).
Proof.
  intros Hw. rewrite slice_to_firstn by exact Hw. rewrite length_firstn. lia.
Qed.

Lemma retained_item_length self (w : Z) ts :
  0 <= w -> length_preserving (self_param self) ->
  (Z.of_nat (length (apply_normalizer (self_param self) (slice_to w (value ts)))) = w <->
   w <= Z.of_nat (len ts)).
Proof.
  intros Hw Hn. rewrite apply_normalizer_length by exact Hn.
  rewrite slice_to_length_min by exact Hw. unfold len. lia.
Qed.

(** X7.  When [transform] gets through, for a window that is not
    negative.  Past the label check, with one label per series when
    labels are given and a normalizer that keeps lengths: a result is
    returned exactly when every series has at least [window] values, and
    the reshape error is raised exactly when some series is shorter.  A
    series longer than the first is not an error: every array of [seq]
    has exactly [window] values. *)
Theorem transform_returns_iff self ts0 rest (w : Z) :
  sanity_check self = Return tt ->
  self_data self = ts0 :: rest ->
  end_of self ts0 = NInt w -> 0 <= w ->
  (forall ls, self_dummy_label self = false -> self_label self = Some ls ->
              length ls = length (self_data self)) ->
  length_preserving (self_param self) ->
  ((exists r, snd (transform self) = Return r) <->
   Forall (fun ts => w <= Z.of_nat (len ts)) (self_data self))
  /\
  (snd (transform self) = Raise NumpyReshapeError <->
   Exists (fun ts => Z.of_nat (len ts) < w) (self_data self))
  /\
  (forall r, snd (transform self) = Return r ->
     Forall (fun a => Z.of_nat (length (flat a)) = w) (seq r)).
Proof.
  intros Hc Hd He Hw Hcount Hn.
  assert (Hlab : length (labels_at self w) = length (self_data self)).
  { rewrite labels_at_length. destruct (self_dummy_label self) eqn:Hdum; [reflexivity|].
    destruct (self_label self) as [ls|] eqn:Hl; [now apply Hcount | reflexivity]. }
  rewrite (transform_reshape_step self Hc Hd He Hlab), reshaping_set_window.
  assert (Hall : Forall (fun a => Z.of_nat (length a) = w) (retained self w) <->
                 Forall (fun ts => w <= Z.of_nat (len ts)) (self_data self)).
  { unfold retained. rewrite Forall_map.
    split; apply Forall_impl; intros ts; now apply retained_item_length. }
  assert (Hex : Exists (fun a => Z.of_nat (length a) <> w) (retained self w) <->
                Exists (fun ts => Z.of_nat (len ts) < w) (self_data self)).
  { unfold retained. rewrite Exists_map.
    split; apply Exists_impl; intros ts Hts.
    - destruct (Z.lt_ge_cases (Z.of_nat (len ts)) w) as [Hlt|Hge]; [exact Hlt|].
      exfalso. apply Hts. now apply retained_item_length.
    - intros Heq. apply retained_item_length in Heq; [lia | exact Hw | exact Hn]. }
  destruct (reshape_all_cases (retained self w) Hw) as [[Hf ->] | [Hx ->]]; simpl.
  - repeat split.
    + intros _. now apply Hall.
    + intros _. eexists; reflexivity.
    + discriminate.
    + intros Hx. exfalso. apply Hex in Hx. exact (Forall_Exists_neg_absurd Hf Hx).
    + intros r Hr. injection Hr as <-. simpl. apply Forall_map. simpl.
      eapply Forall_impl; [|exact Hf]. auto.
  - repeat split.
    + intros (r & Hr). discriminate Hr.
    + intros Hf. exfalso. apply Hall in Hf. exact (Forall_Exists_neg_absurd Hf Hx).
    + intros _. now apply Hex.
    + intros r Hr. discriminate Hr.
Qed.

End Results.

Section ModesAndLabels.

Context {A : Type}.
Implicit Types (self : T2VPreprocessing A) (r : T2VPreprocessed A).

(** X8.  The mode is only ever compared with "classification": with any
    other mode, a misspelt one included, constructing and transforming
    gives what it gives with another such mode, "regression" for one:
    the same result or the same exception. *)
Theorem preprocess_mode_fallthrough (param : T2VParam A)
    (data : list (TimeSeriesData A)) (label : option (list scalar))
    (dummy_label : bool) (m : string) :
  is_classification (mode param) = false -> is_classification m = false ->
  preprocess (with_mode param m) data label dummy_label =
  preprocess param data label dummy_label.
Proof.
  intros H1 H2. unfold preprocess, __init__. cbn [mode with_mode training_output_size].
  rewrite H1, H2.
  destruct label as [ls|]; cbn [bind];
    unfold transform, sanity_check; cbn [self_mode self_dummy_label self_data];
    rewrite H1, H2; cbn [andb]; destruct data as [|ts0 rest]; reflexivity.
Qed.

Lemma check_labels_accepted (ls : list scalar) :
  check_labels ls = Return tt -> Forall (fun l => ~ other_type l) ls.
Proof.
  intros H. destruct (check_labels_cases ls) as [[_ Hall] | [Hr _]]; [exact Hall | congruence].
Qed.

(** X9.  Labels as class indices.  When an instance built in mode
    "classification" without the dummy flag transforms, and every label
    is an int64 below the largest one, [output_size] is an integer [n],
    every label is below [n] and some label is [n - 1]; the labels come
    back as given.  (No label is required to be non-negative; at the
    largest int64 the sum wraps around.) *)
Theorem classification_labels_in_range (param : T2VParam A)
    (data : list (TimeSeriesData A)) (ls : list scalar) self r :
  is_classification (mode param) = true ->
  Forall (fun l => - 2 ^ 63 <= as_Z l < 2 ^ 63 - 1) ls ->
  __init__ param data (Some ls) false = Return self ->
  snd (transform self) = Return r ->
  exists n,
    output_size r = NInt n /\
    label r = map Scalar ls /\
    Forall (fun l => as_Z l < n) ls /\
    Exists (fun l => as_Z l = n - 1) ls.
Proof.
  intros Hm Hrange Hi H.
  destruct (transform_Return_inv self H)
    as (ts0 & rest & e & _ & Hc & _ & _ & _ & Hl & Ho & _ & _).
  unfold __init__ in Hi. rewrite Hm in Hi.
  apply bind_Return_inv in Hi as (out & Hout & Hi). injection Hi as <-.
  apply bind_Return_inv in Hout as (mx & Hmax & Hout). injection Hout as <-.
  unfold sanity_check in Hc. cbn [self_mode self_dummy_label self_label] in Hc.
  rewrite Hm in Hc. cbn [andb negb] in Hc.
  apply check_labels_accepted in Hc.
  assert (Hd : Forall (fun x => dtype_of x = dt_int64) ls).
  { rewrite Forall_forall in *. intros l Hin.
    apply dtype_of_int64; [now apply Hc|]. specialize (Hrange l Hin). lia. }
  destruct (np_max_int64 Hd Hmax) as (m & Hin & Hall & ->).
  assert (Hmr : - 2 ^ 63 <= as_Z m < 2 ^ 63 - 1)
    by (rewrite Forall_forall in Hrange; now apply Hrange).
  exists (as_Z m + 1). cbn [self_output_size num_succ] in Ho.
  rewrite wrap_64_small in Ho by lia.
  split; [exact Ho|]. split; [rewrite Hl; reflexivity|]. split.
  - eapply Forall_impl; [|exact Hall]. intros l Hle. simpl in Hle. lia.
  - apply Exists_exists. exists m. split; [exact Hin | lia].
Qed.

(** X10.  With labels given and the dummy flag off, in any mode, nothing
    is cut off for a label: [window] is the length of the first series,
    whatever [training_output_size], [seq[i]] holds the first [window]
    values of series [i], and the labels come back as given, one per
    series. *)
Theorem transform_labelled_full_window self (ls : list scalar) r :
  self_label self = Some ls -> self_dummy_label self = false ->
  snd (transform self) = Return r ->
  exists ts0 rest,
    self_data self = ts0 :: rest /\
    window r = NInt (Z.of_nat (len ts0)) /\
    label r = map Scalar ls /\
    length ls = length (self_data self) /\
    map (@flat A) (seq r) =
      map (fun ts => apply_normalizer (self_param self) (firstn (len ts0) (value ts)))
          (self_data self).
Proof.
  intros Hl Hd H.
  destruct (transform_Return_inv self H)
    as (ts0 & rest & e & Hdata & _ & He & Hn & Hsq & Hlab & _ & Hw & _).
  unfold end_of in He. rewrite Hl in He. simpl in He. injection He as <-.
  exists ts0, rest. unfold labels_at in Hlab, Hn. rewrite Hd, Hl in Hlab, Hn.
  rewrite length_map in Hn.
  repeat split; auto.
  apply reshape_all_flat in Hsq as [-> _]. unfold retained.
  apply map_ext. intros ts. rewrite slice_to_firstn by lia. now rewrite Nat2Z.id.
Qed.

End ModesAndLabels.

Section CountsAndTails.

Context {A : Type}.
Implicit Types (self : T2VPreprocessing A) (r : T2VPreprocessed A).

(** X11.  The count mismatch, exactly.  [transform] raises it when, and
    only when, the label check is passed, there is a first series, the
    dummy flag is off and labels are given whose number is not the number
    of series.  With the dummy flag, or without labels, it is never
    raised. *)
Theorem transform_count_mismatch_iff self :
  snd (transform self) = Raise (ValueError msg_count_mismatch) <->
  sanity_check self = Return tt /\ self_data self <> [] /\
  self_dummy_label self = false /\
  exists ls, self_label self = Some ls /\ length ls <> length (self_data self).
Proof.
  split.
  - intros H.
    destruct (transform_cases self)
      as [(e0 & Hc & Ht) | [(Hc & Hd & Ht) | (ts0 & rest & Hc & Hd & Hf & Ho)]].
    + rewrite Ht in H. injection H as ->.
      apply sanity_check_Raise_ValueError in Hc as [Hc | Hc]; discriminate Hc.
    + rewrite Ht in H. discriminate H.
    + split; [exact Hc|]. split; [rewrite Hd; discriminate|].
      destruct Ho as [(q & _ & Ho) | (w & He & _)]; [rewrite Ho in H; discriminate H|].
      assert (Hneq : length (labels_at self w) <> length (self_data self)).
      { intros Heq. rewrite (transform_reshape_step self Hc Hd He Heq) in H.
        rewrite reshaping_set_window in H.
        destruct (traverse (reshape_w1 w) (retained self w)) as [sq'|e1] eqn:Hr;
          simpl in H; [discriminate H|].
        injection H as ->. apply reshape_all_Raise_inv in Hr. discriminate Hr. }
      rewrite labels_at_length in Hneq.
      destruct (self_dummy_label self); [now contradiction Hneq|].
      split; [reflexivity|].
      destruct (self_label self) as [ls|]; [now exists ls | now contradiction Hneq].
  - intros (Hc & Hne & Hdum & ls & Hl & Hneq).
    destruct (self_data self) as [|ts0 rest] eqn:Hd; [now contradiction Hne|].
    rewrite (transform_checked self Hc Hd). simpl.
    unfold end_of. rewrite Hl. simpl. rewrite build_NInt.
    rewrite labels_at_length, Hdum, Hl, Hd.
    apply Nat.eqb_neq in Hneq. now rewrite Hneq.
Qed.

(** X12.  The length of a derived label.  Without labels and without the
    dummy flag, for a window [w] that is not negative, the label of a
    series is what that series has beyond position [w]: [len - w] values
    (none when the series is shorter).  Series as long as the first get
    exactly [output_size] values each; a longer series gets a longer
    label, and no error. *)
Theorem transform_tail_label_length self r (w : Z) :
  self_label self = None -> self_dummy_label self = false ->
  snd (transform self) = Return r ->
  window r = NInt w -> 0 <= w ->
  forall i ts l,
    nth_error (self_data self) i = Some ts ->
    nth_error (label r) i = Some l ->
    exists t, l = Array t /\ t = skipn (Z.to_nat w) (value ts) /\
              Z.of_nat (length t) = Z.max 0 (Z.of_nat (len ts) - w).
Proof.
  intros Hl Hd H Hw Hpos i ts l Hts Hlab.
  destruct (transform_Return_inv self H)
    as (ts0 & rest & e & _ & _ & _ & _ & _ & Hlr & _ & Hw' & _).
  rewrite Hw in Hw'. injection Hw' as <-.
  rewrite Hlr in Hlab. unfold labels_at in Hlab. rewrite Hd, Hl, nth_error_map, Hts in Hlab.
  simpl in Hlab. injection Hlab as <-.
  exists (slice_from w (value ts)). split; [reflexivity|].
  rewrite slice_from_skipn by exact Hpos. split; [reflexivity|].
  rewrite length_skipn. unfold len. lia.
Qed.

End CountsAndTails.

(** ** The further properties on the sample inputs *)

Lemma transform_exceptions_witness :
  __init__ Sample.classification Sample.two_series
           (Some [PyInt 0; PyInt 1; PyInt 2]) false = Return Sample.scenario_E /\
  snd (transform Sample.scenario_E) = Raise (ValueError msg_count_mismatch) /\
  (ValueError msg_count_mismatch = ValueError msg_labels_required \/
  ValueError msg_count_mismatch = ValueError msg_float_label \/
  ValueError msg_count_mismatch = ValueError msg_count_mismatch \/
  ValueError msg_count_mismatch = IndexError \/
  ValueError msg_count_mismatch = NumpyReshapeError).
Proof.
  split; [reflexivity|]. split; [reflexivity|].
  apply (@transform_exceptions Z Sample.classification Sample.two_series
           (Some [PyInt 0; PyInt 1; PyInt 2]) false Sample.scenario_E).
  - reflexivity.
  - reflexivity.
Defined.

Lemma transform_result_consistent_witness :
  length (seq Sample.result_A) = length (self_data Sample.scenario_A) /\
  length (label Sample.result_A) = length (self_data Sample.scenario_A) /\
  batched Sample.result_A = false /\
  output_size Sample.result_A = self_output_size Sample.scenario_A /\
  self_window (fst (transform Sample.scenario_A)) = Some (window Sample.result_A).
Proof.
  apply (@transform_result_consistent Z Sample.scenario_A Sample.result_A). reflexivity.
Defined.

Lemma transform_seq_round_trip_witness :
  exists w,
    window Sample.result_A = NInt w /\
    map (@flat Z) (seq Sample.result_A) =
      map (fun ts => apply_normalizer (self_param Sample.scenario_A)
                       (slice_to w (value ts)))
          (self_data Sample.scenario_A) /\
    Forall (fun a => shape a = [length (flat a); 1%nat]) (seq Sample.result_A).
Proof.
  apply (@transform_seq_round_trip Z Sample.scenario_A Sample.result_A). reflexivity.
Defined.

Lemma transform_split_complete_witness :
  snd (transform (Sample.instance (Sample.regression 4) Sample.one_series None false
                                  (NInt 4))) =
    Return (mk_result [mk_ndarray [2%nat; 1%nat] [1; 2]] [Array [3]]
                      (NInt 4) (NInt (-1)) false) /\
  exists t, @Array Z [3] = Array t /\ [1; 2] ++ t = [1; 2; 3].
Proof.
  split; [reflexivity|].
  apply (@transform_split_complete Z
           (Sample.instance (Sample.regression 4) Sample.one_series None false (NInt 4))
           (mk_result [mk_ndarray [2%nat; 1%nat] [1; 2]] [Array [3]]
                      (NInt 4) (NInt (-1)) false)
           eq_refl eq_refl eq_refl eq_refl 0%nat
           (mk_ts [1; 2; 3]) (mk_ndarray [2%nat; 1%nat] [1; 2]) (Array [3]));
    reflexivity.
Defined.

Lemma transform_returns_iff_witness :
  let self := Sample.scenario_A in
  ((exists r, snd (transform self) = Return r) <->
   Forall (fun ts => 3 <= Z.of_nat (len ts)) (self_data self))
  /\
  (snd (transform self) = Raise NumpyReshapeError <->
   Exists (fun ts => Z.of_nat (len ts) < 3) (self_data self))
  /\
  (forall r, snd (transform self) = Return r ->
     Forall (fun a => Z.of_nat (length (flat a)) = 3) (seq r)).
Proof.
  apply (@transform_returns_iff Z Sample.scenario_A (mk_ts [1; 2; 3; 4; 5])
           [mk_ts [6; 7; 8; 9; 10]] 3).
  - reflexivity.
  - reflexivity.
  - reflexivity.
  - lia.
  - intros ls _ H. discriminate H.
  - intros f Hf. discriminate Hf.
Defined.

Lemma preprocess_mode_fallthrough_witness :
  preprocess (with_mode (Sample.regression 2) "regresion") Sample.two_series None false =
  preprocess (Sample.regression 2) Sample.two_series None false.
Proof.
  apply (@preprocess_mode_fallthrough Z (Sample.regression 2) Sample.two_series None false
           "regresion"); reflexivity.
Defined.

Lemma classification_labels_in_range_witness :
  exists n,
    output_size Sample.result_B = NInt n /\
    label Sample.result_B = map Scalar [PyInt 0; PyInt 2] /\
    Forall (fun l => as_Z l < n) [PyInt 0; PyInt 2] /\
    Exists (fun l => as_Z l = n - 1) [PyInt 0; PyInt 2].
Proof.
  apply (@classification_labels_in_range Z Sample.classification Sample.two_series
           [PyInt 0; PyInt 2] Sample.scenario_B Sample.result_B);
    try reflexivity.
  repeat constructor; vm_compute; discriminate.
Defined.

Lemma transform_labelled_full_window_witness :
  exists ts0 rest,
    self_data Sample.scenario_B = ts0 :: rest /\
    window Sample.result_B = NInt (Z.of_nat (len ts0)) /\
    label Sample.result_B = map Scalar [PyInt 0; PyInt 2] /\
    length [PyInt 0; PyInt 2] = length (self_data Sample.scenario_B) /\
    map (@flat Z) (seq Sample.result_B) =
      map (fun ts => apply_normalizer (self_param Sample.scenario_B)
                       (firstn (len ts0) (value ts)))
          (self_data Sample.scenario_B).
Proof.
  apply (@transform_labelled_full_window Z Sample.scenario_B [PyInt 0; PyInt 2]
           Sample.result_B); reflexivity.
Defined.

Lemma transform_tail_label_length_witness :
  exists t, @Array Z [9; 10] = Array t /\ t = skipn (Z.to_nat 3) [6; 7; 8; 9; 10] /\
            Z.of_nat (length t) = Z.max 0 (Z.of_nat 5 - 3).
Proof.
  apply (@transform_tail_label_length Z Sample.scenario_A Sample.result_A 3
           eq_refl eq_refl eq_refl eq_refl ltac:(lia) 1%nat
           (mk_ts [6; 7; 8; 9; 10]) (Array [9; 10]));
    reflexivity.
Defined.

Section NegativeSize.

Context {A : Type}.
Implicit Types (self : T2VPreprocessing A) (r : T2VPreprocessed A).

(** X13.  A negative [output_size].  Without labels and without the
    dummy flag the window is then longer than the first series, no
    reshape of it can succeed, and [transform] never returns a result;
    when the mode is not "classification" and there is a series, what it
    raises is the reshape error. *)
Theorem transform_negative_output_size self (out : Z) :
  self_label self = None -> self_dummy_label self = false ->
  self_output_size self = NInt out -> out < 0 ->
  length_preserving (self_param self) ->
  (forall r, snd (transform self) <> Return r) /\
  (is_classification (self_mode self) = false -> self_data self <> [] ->
   snd (transform self) = Raise NumpyReshapeError).
Proof.
  intros Hl Hd Ho Hneg Hn.
  assert (Hfirst : forall ts0 rest w,
            self_data self = ts0 :: rest -> end_of self ts0 = NInt w ->
            Exists (fun a => Z.of_nat (length a) <> w) (retained self w) /\ 0 <= w).
  { intros ts0 rest w Hdata He. unfold end_of in He. rewrite Hl, Hd, Ho in He.
    simpl in He. injection He as <-.
    assert (Hw : 0 <= Z.of_nat (len ts0) - out) by lia.
    split; [|exact Hw]. unfold retained. rewrite Hdata. apply Exists_cons_hd.
    intros Heq. apply (retained_item_length self ts0 Hw Hn) in Heq. lia. }
  split.
  - intros r H.
    destruct (transform_Return_inv self H)
      as (ts0 & rest & e & Hdata & _ & He & _ & Hsq & _).
    destruct (Hfirst ts0 rest e Hdata He) as [Hex Hw].
    destruct (reshape_all_cases (retained self e) Hw) as [[Hall _] | [_ Hr]].
    + exact (Forall_Exists_neg_absurd Hall Hex).
    + rewrite Hr in Hsq. discriminate Hsq.
  - intros Hm Hne. destruct (self_data self) as [|ts0 rest] eqn:Hdata; [now contradiction Hne|].
    assert (Hc : sanity_check self = Return tt) by (apply sanity_check_skipped; now left).
    assert (He : end_of self ts0 = NInt (Z.of_nat (len ts0) - out))
      by (unfold end_of; now rewrite Hl, Hd, Ho).
    assert (Hlab : length (labels_at self (Z.of_nat (len ts0) - out)) = length (self_data self))
      by (rewrite labels_at_length, Hd, Hl; reflexivity).
    rewrite (transform_reshape_step self Hc Hdata He Hlab), reshaping_set_window.
    destruct (Hfirst ts0 rest _ eq_refl He) as [Hex Hw].
    destruct (reshape_all_cases (retained self (Z.of_nat (len ts0) - out)) Hw)
      as [[Hall _] | [_ ->]]; [|reflexivity].
    exfalso. exact (Forall_Exists_neg_absurd Hall Hex).
Qed.

End NegativeSize.

Lemma transform_negative_output_size_witness :
  snd (transform (Sample.instance (Sample.regression (-1)) Sample.one_series None false
                                  (NInt (-1)))) = Raise NumpyReshapeError.
Proof.
  apply (proj2 (@transform_negative_output_size Z
                  (Sample.instance (Sample.regression (-1)) Sample.one_series None false
                                   (NInt (-1)))
                  (-1) eq_refl eq_refl eq_refl ltac:(lia)
                  ltac:(intros f Hf; discriminate Hf))).
  - reflexivity.
  - simpl. discriminate.
Defined.
